(** * The call router: DID allocation, in-memory index, ledger and reaper

    A shallow embedding of [internal/models/models.go] (packages [models] and
    [router]).  The MySQL store behind [r.db] is modelled as two tables; the
    two Go maps of the router are finite maps; [time.Now()] and SQL [NOW()]
    are one clock, counted in whole seconds and handed to each operation;
    [ORDER BY RAND()] reads a number handed to the operation.

    Every statement is taken to reach the store: connection failures are not
    modelled.  Strings are compared byte for byte, in the maps and in the
    [WHERE] clauses alike.  A routing operation holds [r.mu] throughout and
    is one step; a run of the reaper is a step between two of them. *)

From Stdlib Require Import ZArith Ascii String.
From stdpp Require Import gmap strings list fin_maps.

Local Open Scope string_scope.

(** ** Package models *)

Inductive CallState : Type :=
| CallStateActive      (* "ACTIVE" *)
| CallStateForwarded   (* "FORWARDED_TO_S3" *)
| CallStateReturned    (* "RETURNED_FROM_S3" *)
| CallStateCompleted   (* "COMPLETED_AT_S4" *)
| CallStateFailed.     (* "FAILED" *)

#[global] Instance CallState_eq_dec : EqDecision CallState.
Proof. solve_decision. Defined.

Module CallRecord.
Record t : Type := mk {
  ID : Z;
  CallID : string;
  OriginalANI : string;
  OriginalDNIS : string;
  AssignedDID : string;
  Status : CallState;
  StartTime : Z;
  EndTime : option Z;
  Duration : Z;
  RecordingPath : string
}.
End CallRecord.

Module CallResponse.
Record t : Type := mk {
  Status : string;
  DIDAssigned : string;
  NextHop : string;
  ANIToSend : string;
  DNISToSend : string
}.
End CallResponse.

(** ** The store *)

(** A row of [call_records].  The surrogate key [id] is left out: no statement
    of the router reads it.  [call_id] is [UNIQUE]. *)
Module call_records.
Record row : Type := mk {
  call_id : string;
  original_ani : string;
  original_dnis : string;
  assigned_did : string;
  status : CallState;
  start_time : Z;
  end_time : option Z;
  duration : Z;
  recording_path : string
}.
Definition set_status (st : CallState) (x : row) : row :=
  mk (call_id x) (original_ani x) (original_dnis x) (assigned_did x) st
     (start_time x) (end_time x) (duration x) (recording_path x).
Definition set_assigned_did (d : string) (x : row) : row :=
  mk (call_id x) (original_ani x) (original_dnis x) d (status x)
     (start_time x) (end_time x) (duration x) (recording_path x).
Definition set_end_time (e : option Z) (x : row) : row :=
  mk (call_id x) (original_ani x) (original_dnis x) (assigned_did x) (status x)
     (start_time x) e (duration x) (recording_path x).
End call_records.

(** A row of [dids], without its key: the table is the finite map from the
    [UNIQUE NOT NULL] column [did] to the rest of the row. *)
Module dids.
Record row : Type := mk {
  in_use : bool;
  destination : option string;
  country : string;
  updated_at : Z
}.
#[global] Instance row_eq_dec : EqDecision row.
Proof. solve_decision. Defined.
End dids.

(** The database.  [call_records] is the list of its rows in the order a scan
    returns them.  [call_records_updated_at] tells whether that table has an
    [updated_at] column: the upsert of [storeCallRecord] assigns it, while the
    [CREATE TABLE] of [createTables] declares none. *)
Record DB : Type := mkDB {
  tbl_dids : gmap string dids.row;
  tbl_call_records : list call_records.row;
  call_records_updated_at : bool
}.

Inductive error : Type :=
| ErrNoRows                          (* sql.ErrNoRows *)
| ErrUnknownColumn (column : string) (* MySQL 1054 *)
| ErrNoAvailableDIDs (cause : error) (* "no available DIDs: %v" *)
| ErrDIDNotFound (did : string)      (* "DID not found: %s" *)
| ErrNoActiveCall (did : string)     (* "no active call for DID %s" *)
| ErrCallRecordNotFound (callID : string).

Inductive result (A : Type) : Type :=
| Ok (a : A)
| Err (e : error).
Arguments Ok {A} a.
Arguments Err {A} e.

(** ** Package router *)

Record Router : Type := mkRouter {
  db : DB;
  activeCallsMap : gmap string CallRecord.t;   (* CallID -> CallRecord *)
  didToCallMap : gmap string string;           (* DID -> CallID *)
  recordingPath : string
}.

(** [createTables]: [CREATE TABLE IF NOT EXISTS] keeps tables that are there;
    on a database without them it lays out both, empty, [call_records] with
    the columns of its statement. *)
Definition createTables (existing : option DB) : DB :=
  match existing with
  | Some d => d
  | None => mkDB ∅ [] false
  end.

(** *** cleanString *)

(** [strings.TrimSpace] cuts the runes of [unicode.IsSpace] from both ends.
    On the bytes of a Go string these are the six ASCII ones and the UTF-8
    encodings of U+0085, U+00A0, U+1680, U+2000..U+200A, U+2028, U+2029,
    U+202F, U+205F and U+3000. *)
Definition asciiSpace (c : ascii) : bool :=
  let n := N_of_ascii c in
  ((9 <=? n) && (n <=? 13) || (n =? 32))%N.

Definition space2 (a b : ascii) : bool :=
  ((N_of_ascii a =? 194) && ((N_of_ascii b =? 133) || (N_of_ascii b =? 160)))%N.

Definition space3 (a b c : ascii) : bool :=
  let x := N_of_ascii a in
  let y := N_of_ascii b in
  let z := N_of_ascii c in
  ((x =? 225) && (y =? 154) && (z =? 128)
   || (x =? 226) && (y =? 128)
        && ((128 <=? z) && (z <=? 138) || (z =? 168) || (z =? 169) || (z =? 175))
   || (x =? 226) && (y =? 129) && (z =? 159)
   || (x =? 227) && (y =? 128) && (z =? 128))%N.

Fixpoint trimLeft (s : list ascii) : list ascii :=
  match s with
  | [] => []
  | a :: t =>
    if asciiSpace a then trimLeft t else
    match t with
    | [] => s
    | b :: u =>
      if space2 a b then trimLeft u else
      match u with
      | [] => s
      | c :: v => if space3 a b c then trimLeft v else s
      end
    end
  end.

(** The same from the far end, on the reversed bytes. *)
Fixpoint trimLeftRev (s : list ascii) : list ascii :=
  match s with
  | [] => []
  | c :: t =>
    if asciiSpace c then trimLeftRev t else
    match t with
    | [] => s
    | b :: u =>
      if space2 b c then trimLeftRev u else
      match u with
      | [] => s
      | a :: v => if space3 a b c then trimLeftRev v else s
      end
    end
  end.

Definition TrimSpace (s : list ascii) : list ascii :=
  rev (trimLeftRev (rev (trimLeft s))).

(** [strings.ReplaceAll(s, c, EmptyString)] for a one-byte [c]. *)
Definition removeByte (c : ascii) (s : list ascii) : list ascii :=
  List.filter (fun x => negb (Ascii.eqb x c)) s.

Definition cleanString (s : string) : string :=
  let s1 := TrimSpace (list_ascii_of_string s) in
  let s2 := removeByte "010"%char s1 in
  let s3 := removeByte "013"%char s2 in
  string_of_list_ascii s3.

(** A byte that is ASCII and no white space, as the digits of a number are. *)
Definition plain (c : ascii) : bool :=
  (N_of_ascii c <? 128)%N && negb (asciiSpace c).

(** *** The DID pool *)

(** The rows [WHERE in_use = 0] selects. *)
Definition free_dids (d : DB) : list string :=
  (map_to_list (filter (fun kv => dids.in_use kv.2 = false) (tbl_dids d))).*1.

(** [ORDER BY RAND() LIMIT 1]: [rnd] picks one of the free rows. *)
Definition getAvailableDID (rnd : nat) (d : DB) : result string :=
  let free := free_dids d in
  match free !! (rnd `mod` length free)%nat with
  | Some did => Ok did
  | None => Err (ErrNoAvailableDIDs ErrNoRows)
  end.

(** [RowsAffected] counts the rows the [UPDATE] changed: none when there is
    no row of that DID, or when the row reads the same already. *)
Definition markDIDInUse (now : Z) (did destination : string) (d : DB) : result DB :=
  match tbl_dids d !! did with
  | Some x =>
    let x1 := dids.mk true (Some destination) (dids.country x) now in
    if decide (x1 = x) then Err (ErrDIDNotFound did)
    else Ok (mkDB (<[did := x1]> (tbl_dids d)) (tbl_call_records d) (call_records_updated_at d))
  | None => Err (ErrDIDNotFound did)
  end.

Definition releaseDID (now : Z) (did : string) (d : DB) : result DB :=
  Ok (mkDB (alter (fun x => dids.mk false None (dids.country x) now) did (tbl_dids d))
           (tbl_call_records d) (call_records_updated_at d)).

(** *** The ledger *)

(** The row the [INSERT] of [storeCallRecord] writes: seven columns from the
    record, [end_time] and [duration] at their defaults. *)
Definition row_of_record (r : CallRecord.t) : call_records.row :=
  call_records.mk (CallRecord.CallID r) (CallRecord.OriginalANI r)
    (CallRecord.OriginalDNIS r) (CallRecord.AssignedDID r) (CallRecord.Status r)
    (CallRecord.StartTime r) None 0 (CallRecord.RecordingPath r).

(** [rows.Scan] of the seven selected columns into a fresh record. *)
Definition record_of_row (x : call_records.row) : CallRecord.t :=
  CallRecord.mk 0 (call_records.call_id x) (call_records.original_ani x)
    (call_records.original_dnis x) (call_records.assigned_did x)
    (call_records.status x) (call_records.start_time x) None 0
    (call_records.recording_path x).

Definition has_call_id (callID : string) (x : call_records.row) : bool :=
  bool_decide (call_records.call_id x = callID).

(** [INSERT ... ON DUPLICATE KEY UPDATE status, assigned_did]. *)
Definition upsert (r : CallRecord.t) (rows : list call_records.row) : list call_records.row :=
  if existsb (has_call_id (CallRecord.CallID r)) rows then
    (fun x =>
       if has_call_id (CallRecord.CallID r) x then
         call_records.set_assigned_did (CallRecord.AssignedDID r)
           (call_records.set_status (CallRecord.Status r) x)
       else x) <$> rows
  else rows ++ [row_of_record r].

(** The statement ends in [updated_at = NOW()].  [call_records] as
    [createTables] declares it has no column of that name ([dids] has), and
    a table without it turns the whole statement down as naming an unknown
    column, whether the key is there or not. *)
Definition storeCallRecord (record : CallRecord.t) (d : DB) : result DB :=
  if call_records_updated_at d then
    Ok (mkDB (tbl_dids d) (upsert record (tbl_call_records d)) (call_records_updated_at d))
  else Err (ErrUnknownColumn "updated_at").

Definition terminal (st : CallState) : bool :=
  match st with
  | CallStateCompleted | CallStateFailed => true
  | _ => false
  end.

Definition update_status_row (now : Z) (callID : string) (st : CallState)
    (x : call_records.row) : call_records.row :=
  if has_call_id callID x then
    call_records.mk (call_records.call_id x) (call_records.original_ani x)
      (call_records.original_dnis x) (call_records.assigned_did x) st
      (call_records.start_time x)
      (if terminal st then Some now else call_records.end_time x)
      (if terminal st then (now - call_records.start_time x)%Z else call_records.duration x)
      (call_records.recording_path x)
  else x.

(** The [UPDATE] matches no row for an unknown [call_id] and reports no error. *)
Definition updateCallStatus (now : Z) (callID : string) (st : CallState) (d : DB) : DB :=
  mkDB (tbl_dids d) (update_status_row now callID st <$> tbl_call_records d)
       (call_records_updated_at d).

(** [status IN ('ACTIVE', 'FORWARDED_TO_S3', 'RETURNED_FROM_S3')
     AND start_time > DATE_SUB(NOW(), INTERVAL 5 MINUTE)]. *)
Definition restorable (now : Z) (x : call_records.row) : bool :=
  match call_records.status x with
  | CallStateActive | CallStateForwarded | CallStateReturned =>
      (now - 300 <? call_records.start_time x)%Z
  | _ => false
  end.

(** [ORDER BY start_time DESC LIMIT 1]: the latest row, the first scanned
    among equals. *)
Definition later (acc : option call_records.row) (x : call_records.row) : option call_records.row :=
  match acc with
  | None => Some x
  | Some y => if (call_records.start_time y <? call_records.start_time x)%Z then Some x else Some y
  end.

Definition getCallRecordByDID (now : Z) (did : string) (d : DB) : result CallRecord.t :=
  let hits :=
    List.filter (fun x => bool_decide (call_records.assigned_did x = did) && restorable now x)
                (tbl_call_records d) in
  match foldl later None hits with
  | Some x => Ok (record_of_row x)
  | None => Err ErrNoRows
  end.

(** *** The in-memory index *)

(** [r.activeCallsMap[record.CallID] = record;
     r.didToCallMap[record.AssignedDID] = record.CallID].  The maps hold
    pointers, but no code writes through them: a record is a value. *)
Definition remember (r : Router) (record : CallRecord.t) : Router :=
  mkRouter (db r)
    (<[CallRecord.CallID record := record]> (activeCallsMap r))
    (<[CallRecord.AssignedDID record := CallRecord.CallID record]> (didToCallMap r))
    (recordingPath r).

(** The loop [for rows.Next()] over the rows of a result set. *)
Definition remember_rows (r : Router) (rows : list call_records.row) : Router :=
  foldl (fun r x => remember r (record_of_row x)) r rows.

Definition restoreActiveCalls (now : Z) (r : Router) : Router :=
  remember_rows r (List.filter (restorable now) (tbl_call_records (db r))).

(** *** The reaper *)

(** [status IN ('ACTIVE', 'FORWARDED_TO_S3')
     AND start_time < DATE_SUB(NOW(), INTERVAL 5 MINUTE)]. *)
Definition stale (now : Z) (x : call_records.row) : bool :=
  match call_records.status x with
  | CallStateActive | CallStateForwarded => (call_records.start_time x <? now - 300)%Z
  | _ => false
  end.

Definition expire (now : Z) (x : call_records.row) : call_records.row :=
  if stale now x then
    call_records.set_end_time (Some now) (call_records.set_status CallStateFailed x)
  else x.

(** [cr.status = 'FAILED' AND cr.end_time > DATE_SUB(NOW(), INTERVAL 1 MINUTE)];
    a [NULL] end time compares as false. *)
Definition recently_failed (now : Z) (x : call_records.row) : bool :=
  match call_records.status x, call_records.end_time x with
  | CallStateFailed, Some e => (now - 60 <? e)%Z
  | _, _ => false
  end.

(** The rows of [dids] that the join with [call_records] reaches. *)
Definition joined (now : Z) (rows : list call_records.row) (did : string) : bool :=
  existsb (fun x => bool_decide (call_records.assigned_did x = did) && recently_failed now x) rows.

(** [SET d.in_use = 0, d.destination = NULL]; [updated_at] follows
    [ON UPDATE CURRENT_TIMESTAMP] when the row changes. *)
Definition release_row (now : Z) (x : dids.row) : dids.row :=
  dids.mk false None (dids.country x)
    (if dids.in_use x || bool_decide (is_Some (dids.destination x)) then now else dids.updated_at x).

Definition cleanupStaleCalls (now : Z) (r : Router) : Router :=
  let rows := tbl_call_records (db r) in
  let affected := length (List.filter (stale now) rows) in
  let rows1 := expire now <$> rows in
  if (0 <? affected)%nat then
    mkRouter
      (mkDB (map_imap (fun did x => Some (if joined now rows1 did then release_row now x else x))
                      (tbl_dids (db r)))
            rows1 (call_records_updated_at (db r)))
      (activeCallsMap r) (didToCallMap r) (recordingPath r)
  else
    mkRouter (mkDB (tbl_dids (db r)) rows1 (call_records_updated_at (db r)))
             (activeCallsMap r) (didToCallMap r) (recordingPath r).

(** *** The two routing operations *)

Definition ProcessIncomingCall (now : Z) (rnd : nat) (callID ani dnis : string)
    (r : Router) : Router * result CallResponse.t :=
  match getAvailableDID rnd (db r) with
  | Err e => (r, Err e)
  | Ok did =>
    match markDIDInUse now did dnis (db r) with
    | Err e => (r, Err e)
    | Ok db1 =>
      let record :=
        CallRecord.mk 0 callID ani dnis did CallStateActive now None 0
          (recordingPath r ++ "/" ++ callID ++ ".wav") in
      let acm := <[callID := record]> (activeCallsMap r) in
      let dcm := <[did := callID]> (didToCallMap r) in
      let db2 := match storeCallRecord record db1 with
                 | Ok d => d
                 | Err _ => db1   (* logged *)
                 end in
      let response := CallResponse.mk "success" did "trunk-s3" dnis did in
      let db3 := updateCallStatus now callID CallStateForwarded db2 in
      (mkRouter db3 acm dcm (recordingPath r), Ok response)
    end
  end.

Definition ProcessReturnCall (now : Z) (ani2 did : string)
    (r : Router) : Router * result CallResponse.t :=
  let did := cleanString did in
  let ani2 := cleanString ani2 in
  let found :=
    match didToCallMap r !! did with
    | Some callID => Ok (callID, r)
    | None =>
      match getCallRecordByDID now did (db r) with
      | Err _ => Err (ErrNoActiveCall did)
      | Ok record =>
        let callID := CallRecord.CallID record in
        Ok (callID,
            mkRouter (db r) (<[callID := record]> (activeCallsMap r))
                     (<[did := callID]> (didToCallMap r)) (recordingPath r))
      end
    end in
  match found with
  | Err e => (r, Err e)
  | Ok (callID, r1) =>
    match activeCallsMap r1 !! callID with
    | None => (r1, Err (ErrCallRecordNotFound callID))
    | Some record =>
      (* a mismatch of ani2 and record.OriginalDNIS is only logged *)
      let db1 := updateCallStatus now callID CallStateReturned (db r1) in
      let response :=
        CallResponse.mk "success" EmptyString "trunk-s4"
          (CallRecord.OriginalANI record) (CallRecord.OriginalDNIS record) in
      (mkRouter db1 (activeCallsMap r1) (didToCallMap r1) (recordingPath r1), Ok response)
    end
  end.

(** [NewRouter] after [sql.Open] and [Ping]: empty maps, then the rebuild. *)
Definition NewRouter (now : Z) (existing : option DB) : Router :=
  restoreActiveCalls now
    (mkRouter (createTables existing) ∅ ∅ "/var/spool/asterisk/recordings").

(** A restart of the process on the database it leaves behind. *)
Definition restart (now : Z) (r : Router) : Router := NewRouter now (Some (db r)).

(** *** Runs of the engine *)

Inductive op : Type :=
| OpIncoming (now : Z) (rnd : nat) (callID ani dnis : string)
| OpReturn (now : Z) (ani2 did : string)
| OpRestore (now : Z)
| OpCleanup (now : Z).

Definition step (r : Router) (o : op) : Router :=
  match o with
  | OpIncoming now rnd callID ani dnis => (ProcessIncomingCall now rnd callID ani dnis r).1
  | OpReturn now ani2 did => (ProcessReturnCall now ani2 did r).1
  | OpRestore now => restoreActiveCalls now r
  | OpCleanup now => cleanupStaleCalls now r
  end.

Definition run (ops : list op) (r : Router) : Router := foldl step r ops.

(** Calls of [ProcessIncomingCall] that race for [r.mu]: the mutex is held
    from the first line to the return, so the bodies run one after the other,
    in the order the lock is granted.  A schedule lists the requests in that
    order, each with the clock and the draw it meets. *)
Record incoming : Type := mkIncoming {
  in_now : Z;
  in_rnd : nat;
  in_callID : string;
  in_ani : string;
  in_dnis : string
}.

Fixpoint serve (schedule : list incoming) (r : Router) : Router * list (result CallResponse.t) :=
  match schedule with
  | [] => (r, [])
  | q :: rest =>
    let '(r1, res) := ProcessIncomingCall (in_now q) (in_rnd q) (in_callID q) (in_ani q) (in_dnis q) r in
    let '(r2, out) := serve rest r1 in
    (r2, res :: out)
  end.

(** The DIDs handed out by the calls that succeeded. *)
Fixpoint assigned (out : list (result CallResponse.t)) : list string :=
  match out with
  | [] => []
  | Ok resp :: rest => CallResponse.DIDAssigned resp :: assigned rest
  | Err _ :: rest => assigned rest
  end.

(** What holds between the two maps of the index: every DID entry leads to a
    call id that has a record, and every record sits under its own call id
    with its DID among the DID entries. *)
Definition index_inv (r : Router) : Prop :=
  (∀ did callID, didToCallMap r !! did = Some callID → is_Some (activeCallsMap r !! callID)) ∧
  (∀ callID record, activeCallsMap r !! callID = Some record →
     CallRecord.CallID record = callID ∧
     is_Some (didToCallMap r !! CallRecord.AssignedDID record)).

(** A DID that is in use and that the ledger shows only on rows in status
    RETURNED or COMPLETED. *)
Definition held (did : string) (d : DB) : Prop :=
  dids.in_use <$> tbl_dids d !! did = Some true ∧
  ∀ x, x ∈ tbl_call_records d → call_records.assigned_did x = did →
       call_records.status x = CallStateReturned ∨ call_records.status x = CallStateCompleted.

(** A run of the reaper alone. *)
Definition is_tick (o : op) : Prop := ∃ now, o = OpCleanup now.

(** ** Small runs *)

Definition pool2 : gmap string dids.row :=
  <["15550001" := dids.mk false None "US" 0]>
    (<["15550002" := dids.mk false None "US" 0]> ∅).

Definition router0 (updated_at : bool) : Router :=
  mkRouter (mkDB pool2 [] updated_at) ∅ ∅ "/var/spool/asterisk/recordings".

Definition pool_busy : gmap string dids.row :=
  <["15550001" := dids.mk true (Some "222") "US" 0]> ∅.

Definition router_busy : Router :=
  mkRouter (mkDB pool_busy [] true) ∅ ∅ "/var/spool/asterisk/recordings".

(** A call that came in at second 0 and is never heard of again. *)
Definition router_forwarded : Router :=
  (ProcessIncomingCall 0 0 "c1" "111" "222" (router0 true)).1.

(** A call that came in at second 0 and returned at second 5. *)
Definition router_returned : Router :=
  (ProcessReturnCall 5 "222" "15550001" router_forwarded).1.


(** The same call id comes in twice, at seconds 0 and 3. *)
Definition router_twice : Router :=
  (ProcessIncomingCall 3 0 "c1" "333" "444" router_forwarded).1.

(** The pool of [pool2] on the tables [createTables] lays out. *)
Definition router_created : Router :=
  NewRouter 0 (Some (mkDB pool2 (tbl_call_records (createTables None))
                          (call_records_updated_at (createTables None)))).

(** Two calls come in at seconds 0 and 20 and are never heard of again.  The
    reaper fails the first at second 310 and frees its DID, which a third
    call is given at second 312; that call returns at second 315. *)
Definition router_shared : Router :=
  run [OpIncoming 0 0 "Z" "1" "2"; OpIncoming 20 0 "Y" "3" "4"; OpCleanup 310;
       OpIncoming 312 0 "A" "5" "6"] (router0 true).


(** A pool whose one number was loaded with the line feed that ended its
    line, and the call that is given it at second 0. *)
Definition did_lf : string := "15550001" ++ String "010"%char EmptyString.

Definition router_lf : Router :=
  mkRouter (mkDB (<[did_lf := dids.mk false None "US" 0]> ∅) [] true) ∅ ∅
           "/var/spool/asterisk/recordings".

Definition router_lf_forwarded : Router :=
  (ProcessIncomingCall 0 0 "c1" "111" "222" router_lf).1.

(** A pool whose one number was loaded with a leading blank; the process
    starts on it at second 0, a call is given the number at second 1 and the
    reaper runs at second 30. *)
Definition did_sp : string := " 15550009".

Definition router_sp : Router :=
  run [OpIncoming 1 0 "c9" "777" "888"; OpCleanup 30]
      (NewRouter 0 (Some (mkDB (<[did_sp := dids.mk false None "US" 0]> ∅) [] true))).
(** ** Further runs *)

(** A ledger row that an earlier process left: the call d1 came in at second
    100 and was forwarded with DID 15550001, now in use. *)
Definition router_cold : Router :=
  mkRouter
    (mkDB (<["15550001" := dids.mk true (Some "222") "US" 100]> pool2)
          [call_records.mk "d1" "111" "222" "15550001" CallStateForwarded 100 None 0
             "/var/spool/asterisk/recordings/d1.wav"]
          true)
    ∅ ∅ "/var/spool/asterisk/recordings".

(** Two states of one ledger row: the columns the [INSERT] sets and no
    [UPDATE] of the router names are the same in both. *)
Definition same_call (x y : call_records.row) : Prop :=
  call_records.call_id y = call_records.call_id x ∧
  call_records.original_ani y = call_records.original_ani x ∧
  call_records.original_dnis y = call_records.original_dnis x ∧
  call_records.start_time y = call_records.start_time x ∧
  call_records.recording_path y = call_records.recording_path x.

(** [same_call], and a row that reads COMPLETED has not been written. *)
Definition keeps (x y : call_records.row) : Prop :=
  same_call x y ∧ (call_records.status y = CallStateCompleted → y = x).

(** A ledger another writer has been at: the call e1 is COMPLETED. *)
Definition router_done : Router :=
  mkRouter
    (mkDB pool2
          [call_records.mk "e1" "777" "888" "15550001" CallStateCompleted 10 (Some 60%Z) 50
             "/var/spool/asterisk/recordings/e1.wav"]
          true)
    ∅ ∅ "/var/spool/asterisk/recordings".

(** A step that is not a run of the reaper. *)
Definition is_request (o : op) : Prop :=
  match o with
  | OpCleanup _ => False
  | _ => True
  end.

(** [cleanupRoutine]: a ticker of 30 seconds, made at second [start], and
    one run of [cleanupStaleCalls] per tick.  The loop does not end while
    the process lives; this is the router after its first [n] ticks. *)
Fixpoint cleanupRoutine (start : Z) (n : nat) (r : Router) : Router :=
  match n with
  | O => r
  | S k => cleanupRoutine (start + 30) k (cleanupStaleCalls (start + 30) r)
  end.

(** ** Statistics *)

(** The map [GetStatistics] returns, key by key.  [today] is the store's
    test [DATE(start_time) = CURDATE()] on a start time; [timestamp] is the
    clock, which the code renders in RFC 3339; [memory_calls] lists the call
    map in the order the iteration takes. *)
Module Statistics.
Record t : Type := mk {
  active_calls : Z;
  total_dids : Z;
  used_dids : Z;
  available_dids : Z;
  calls_today : Z;
  completed_calls : Z;
  timestamp : Z;
  memory_calls : list (string * string * CallState * Z)
}.
End Statistics.

(** [SUM(CASE WHEN c THEN 1 ELSE 0 END)]: the rows with [c].  Over no rows
    the sum is [NULL], the scan of it fails and the Go variable keeps its
    zero, which is the count. *)
Definition GetStatistics (now : Z) (today : Z → bool) (r : Router) : Statistics.t :=
  let activeCalls := Z.of_nat (size (activeCallsMap r)) in
  let totalDIDs := Z.of_nat (size (tbl_dids (db r))) in
  let usedDIDs :=
    Z.of_nat (size (filter (fun kv => dids.in_use kv.2 = true) (tbl_dids (db r)))) in
  let rows_today :=
    List.filter (fun x => today (call_records.start_time x)) (tbl_call_records (db r)) in
  let todaysCalls := Z.of_nat (length rows_today) in
  let completedCalls :=
    Z.of_nat (length (List.filter
                        (fun x => bool_decide (call_records.status x = CallStateCompleted))
                        rows_today)) in
  Statistics.mk activeCalls totalDIDs usedDIDs (totalDIDs - usedDIDs)%Z
    todaysCalls completedCalls now
    ((fun kv => (CallRecord.CallID kv.2, CallRecord.AssignedDID kv.2,
                 CallRecord.Status kv.2, CallRecord.StartTime kv.2))
       <$> map_to_list (activeCallsMap r)).

(** ** Package api *)

(** What a handler writes: the status code and the body, which is a fixed
    text, the text of an error ([err.Error()]) or the JSON of a response. *)
Inductive body : Type :=
| Text (s : string)
| ErrorText (e : error)
| JSON (resp : CallResponse.t).

Definition StatusOK : nat := 200.
Definition StatusBadRequest : nat := 400.
Definition StatusNotFound : nat := 404.
Definition StatusInternalServerError : nat := 500.

(** [r.URL.Query().Get] gives the empty string for a parameter that is not
    there. *)
Definition handleProcessIncoming (now : Z) (rnd : nat) (callid ani dnis : string)
    (r : Router) : Router * (nat * body) :=
  if bool_decide (callid = EmptyString) || bool_decide (ani = EmptyString)
     || bool_decide (dnis = EmptyString)
  then (r, (StatusBadRequest, Text "Missing parameters"))
  else
    match ProcessIncomingCall now rnd callid ani dnis r with
    | (r1, Err e) => (r1, (StatusInternalServerError, ErrorText e))
    | (r1, Ok resp) => (r1, (StatusOK, JSON resp))
    end.

Definition handleProcessReturn (now : Z) (ani2 did : string)
    (r : Router) : Router * (nat * body) :=
  if bool_decide (ani2 = EmptyString) || bool_decide (did = EmptyString)
  then (r, (StatusBadRequest, Text "Missing parameters"))
  else
    match ProcessReturnCall now ani2 did r with
    | (r1, Err e) => (r1, (StatusNotFound, ErrorText e))
    | (r1, Ok resp) => (r1, (StatusOK, JSON resp))
    end.

(** * Properties *)

(** ** cleanString on plain strings *)

Lemma plain_spec c :
  plain c = true →
  (N_of_ascii c < 128)%N ∧ asciiSpace c = false ∧
  (N_of_ascii c < 9 ∨ 13 < N_of_ascii c)%N ∧ N_of_ascii c ≠ 32%N.
Proof.
  unfold plain, asciiSpace. intros [Hlt Hsp]%andb_prop.
  apply N.ltb_lt in Hlt. apply negb_true_iff in Hsp.
  split; [done|]. split; [done|].
  apply orb_false_iff in Hsp as [H1 H2]. apply N.eqb_neq in H2.
  apply andb_false_iff in H1 as [H1|H1]; apply N.leb_gt in H1; split; (done || lia).
Qed.

Lemma space2_plain_l a b : plain a = true → space2 a b = false.
Proof.
  intros (Hlt & _)%plain_spec. unfold space2.
  apply andb_false_iff. left. apply N.eqb_neq. lia.
Qed.

Lemma space2_plain_r a b : plain b = true → space2 a b = false.
Proof.
  intros (Hlt & _)%plain_spec. unfold space2.
  apply andb_false_iff. right. apply orb_false_iff. split; apply N.eqb_neq; lia.
Qed.

Lemma space3_plain_l a b c : plain a = true → space3 a b c = false.
Proof.
  intros (Hlt & _)%plain_spec. unfold space3. simpl.
  assert ((N_of_ascii a =? 225)%N = false) as -> by (apply N.eqb_neq; lia).
  assert ((N_of_ascii a =? 226)%N = false) as -> by (apply N.eqb_neq; lia).
  assert ((N_of_ascii a =? 227)%N = false) as -> by (apply N.eqb_neq; lia).
  done.
Qed.

Lemma space3_plain_r a b c : plain c = true → space3 a b c = false.
Proof.
  intros (Hlt & _)%plain_spec. unfold space3. simpl.
  assert ((N_of_ascii c =? 128)%N = false) as -> by (apply N.eqb_neq; lia).
  assert ((128 <=? N_of_ascii c)%N = false) as -> by (apply N.leb_gt; lia).
  assert ((N_of_ascii c =? 168)%N = false) as -> by (apply N.eqb_neq; lia).
  assert ((N_of_ascii c =? 169)%N = false) as -> by (apply N.eqb_neq; lia).
  assert ((N_of_ascii c =? 175)%N = false) as -> by (apply N.eqb_neq; lia).
  assert ((N_of_ascii c =? 159)%N = false) as -> by (apply N.eqb_neq; lia).
  by rewrite !andb_false_r.
Qed.

Lemma trimLeft_plain a t : plain a = true → trimLeft (a :: t) = a :: t.
Proof.
  intros H. simpl. destruct (plain_spec _ H) as (_ & -> & _).
  destruct t as [|b [|c v]]; [done| |].
  - by rewrite space2_plain_l.
  - by rewrite space2_plain_l, space3_plain_l.
Qed.

Lemma trimLeftRev_plain c t : plain c = true → trimLeftRev (c :: t) = c :: t.
Proof.
  intros H. simpl. destruct (plain_spec _ H) as (_ & -> & _).
  destruct t as [|b [|a v]]; [done| |].
  - by rewrite space2_plain_r.
  - by rewrite space2_plain_r, space3_plain_r.
Qed.

Lemma TrimSpace_plain s : forallb plain s = true → TrimSpace s = s.
Proof.
  intros H. unfold TrimSpace.
  assert (trimLeft s = s) as ->.
  { destruct s as [|a t]; [done|]. simpl in H. apply andb_prop in H as [Ha _].
    by apply trimLeft_plain. }
  assert (forallb plain (rev s) = true) as Hr.
  { apply forallb_forall. intros x Hx. apply in_rev in Hx.
    eapply forallb_forall in H; eauto. }
  destruct (rev s) as [|c t] eqn:E.
  - simpl. by rewrite <- (rev_involutive s), E.
  - simpl in Hr. apply andb_prop in Hr as [Hc _].
    by rewrite (trimLeftRev_plain _ _ Hc), <- E, rev_involutive.
Qed.

Lemma removeByte_plain c s :
  asciiSpace c = true → forallb plain s = true → removeByte c s = s.
Proof.
  intros Hc H. unfold removeByte. induction s as [|x s IH]; [done|].
  simpl in *. apply andb_prop in H as [Hx Hs].
  destruct (Ascii.eqb_spec x c) as [->|_]; simpl.
  - destruct (plain_spec _ Hx) as (_ & Hsp & _). congruence.
  - by rewrite IH.
Qed.

(** A string of plain bytes, a digit string for one, comes out of
    [cleanString] as it went in. *)
Lemma cleanString_plain s :
  forallb plain (list_ascii_of_string s) = true → cleanString s = s.
Proof.
  intros H. unfold cleanString.
  rewrite (TrimSpace_plain _ H).
  rewrite (removeByte_plain "010"%char _ eq_refl H).
  rewrite (removeByte_plain "013"%char _ eq_refl H).
  apply string_of_list_ascii_of_string.
Qed.

Example cleanString_trims :
  cleanString (" 15550001" ++ String "013" (String "010" EmptyString)) = "15550001".
Proof. reflexivity. Qed.

Example cleanString_nbsp :
  cleanString (String "194" (String "160" "15550001")) = "15550001".
Proof. reflexivity. Qed.

Example cleanString_inner :
  cleanString ("1555" ++ String "010" " 0001") = "1555 0001".
Proof. reflexivity. Qed.

(** ** The pool *)

Lemma elem_of_free_dids (d : DB) (did : string) :
  did ∈ free_dids d ↔ ∃ x, tbl_dids d !! did = Some x ∧ dids.in_use x = false.
Proof.
  unfold free_dids. rewrite list_elem_of_fmap. split.
  - intros [[k x] [-> Hin]]. apply elem_of_map_to_list in Hin.
    apply map_lookup_filter_Some in Hin as [Hk Hx]. by exists x.
  - intros (x & Hk & Hx). exists (did, x). split; [done|].
    apply elem_of_map_to_list. by apply map_lookup_filter_Some.
Qed.

Lemma NoDup_free_dids (d : DB) : NoDup (free_dids d).
Proof. unfold free_dids. apply NoDup_fst_map_to_list. Qed.

Lemma getAvailableDID_Ok rnd d did :
  getAvailableDID rnd d = Ok did → did ∈ free_dids d.
Proof.
  unfold getAvailableDID. destruct (free_dids d !! _) eqn:E; [|done].
  intros [= <-]. by eapply list_elem_of_lookup_2.
Qed.

Lemma getAvailableDID_Err rnd d e :
  getAvailableDID rnd d = Err e → free_dids d = [] ∧ e = ErrNoAvailableDIDs ErrNoRows.
Proof.
  unfold getAvailableDID. destruct (free_dids d) as [|a l] eqn:E; simpl.
  - by intros [= <-].
  - destruct ((a :: l) !! _) eqn:E'; [done|].
    apply lookup_ge_None in E'. simpl in E'.
    pose proof (Nat.mod_upper_bound rnd (S (length l))). lia.
Qed.

(** Every free DID is a possible draw. *)
Lemma getAvailableDID_any d did :
  did ∈ free_dids d → ∃ rnd, getAvailableDID rnd d = Ok did.
Proof.
  intros Hin. apply list_elem_of_lookup in Hin as [i Hi]. exists i.
  unfold getAvailableDID. apply lookup_lt_Some in Hi as Hlt.
  by rewrite Nat.mod_small, Hi.
Qed.

Lemma markDIDInUse_Ok now did dest d d1 :
  markDIDInUse now did dest d = Ok d1 →
  ∃ x, tbl_dids d !! did = Some x ∧
       d1 = mkDB (<[did := dids.mk true (Some dest) (dids.country x) now]> (tbl_dids d))
                 (tbl_call_records d) (call_records_updated_at d).
Proof.
  unfold markDIDInUse. destruct (tbl_dids d !! did) as [x|]; [|done].
  destruct (decide _); [done|]. intros [= <-]. eauto.
Qed.

(** A free row changes when it is marked: the statement counts it. *)
Lemma markDIDInUse_free now did dest d :
  did ∈ free_dids d → ∃ d1, markDIDInUse now did dest d = Ok d1.
Proof.
  intros (x & Hx & Hfree)%elem_of_free_dids. unfold markDIDInUse. rewrite Hx.
  destruct (decide _) as [Heq|]; [|eauto].
  rewrite <- Heq in Hfree. done.
Qed.

(** What a successful [ProcessIncomingCall] leaves behind. *)
Lemma ProcessIncomingCall_Ok now rnd callID ani dnis r resp :
  (ProcessIncomingCall now rnd callID ani dnis r).2 = Ok resp →
  ∃ did,
    did ∈ free_dids (db r) ∧
    resp = CallResponse.mk "success" did "trunk-s3" dnis did ∧
    activeCallsMap (ProcessIncomingCall now rnd callID ani dnis r).1 =
      <[callID := CallRecord.mk 0 callID ani dnis did CallStateActive now None 0
                    (recordingPath r ++ "/" ++ callID ++ ".wav")]> (activeCallsMap r) ∧
    didToCallMap (ProcessIncomingCall now rnd callID ani dnis r).1 =
      <[did := callID]> (didToCallMap r).
Proof.
  unfold ProcessIncomingCall.
  destruct (getAvailableDID rnd (db r)) as [did|e] eqn:E; [|done].
  apply getAvailableDID_Ok in E.
  destruct (markDIDInUse_free now did dnis _ E) as [d1 ->]. simpl.
  intros [= <-]. by exists did.
Qed.

Lemma cleanupStaleCalls_maps now r :
  activeCallsMap (cleanupStaleCalls now r) = activeCallsMap r ∧
  didToCallMap (cleanupStaleCalls now r) = didToCallMap r.
Proof. unfold cleanupStaleCalls. by destruct (_ <? _)%nat. Qed.

Lemma run_ticks_maps ticks r :
  Forall is_tick ticks →
  activeCallsMap (run ticks r) = activeCallsMap r ∧
  didToCallMap (run ticks r) = didToCallMap r.
Proof.
  intros H. revert r. induction H as [|o ticks [now ->] _ IH]; intros r; [done|].
  unfold run in *. simpl. destruct (IH (cleanupStaleCalls now r)) as [-> ->].
  apply cleanupStaleCalls_maps.
Qed.

(** A return whose DID is in the index, with its record, is served from the
    index and leaves it as it was. *)
Lemma ProcessReturnCall_hit now ani2 did r callID record :
  didToCallMap r !! cleanString did = Some callID →
  activeCallsMap r !! callID = Some record →
  ProcessReturnCall now ani2 did r =
    (mkRouter (updateCallStatus now callID CallStateReturned (db r))
              (activeCallsMap r) (didToCallMap r) (recordingPath r),
     Ok (CallResponse.mk "success" EmptyString "trunk-s4"
           (CallRecord.OriginalANI record) (CallRecord.OriginalDNIS record))).
Proof. intros Hd Hc. unfold ProcessReturnCall. rewrite Hd. by rewrite Hc. Qed.

(** ** C4 *)

(** C4. With no DID marked free, [ProcessIncomingCall] returns the
    "no available DIDs" error and the router, index and store, is exactly
    what it was: no record in either map, no row in the ledger, no DID row
    touched. *)
Theorem empty_pool_fails_atomically now rnd callID ani dnis (r : Router) :
  (∀ did x, tbl_dids (db r) !! did = Some x → dids.in_use x = true) →
  ProcessIncomingCall now rnd callID ani dnis r = (r, Err (ErrNoAvailableDIDs ErrNoRows)).
Proof.
  intros Hfull. unfold ProcessIncomingCall.
  destruct (getAvailableDID rnd (db r)) as [did|e] eqn:E.
  - apply getAvailableDID_Ok, elem_of_free_dids in E as (x & Hx & Hfree).
    apply Hfull in Hx. congruence.
  - by apply getAvailableDID_Err in E as [_ ->].
Qed.

Lemma empty_pool_fails_atomically_witness :
  ProcessIncomingCall 9 4 "c9" "111" "222" router_busy
  = (router_busy, Err (ErrNoAvailableDIDs ErrNoRows)).
Proof.
  apply empty_pool_fails_atomically. intros did x. unfold router_busy, pool_busy. simpl.
  intros H. apply lookup_insert_Some in H as [[_ <-]|[_ H]]; [reflexivity|].
  by rewrite lookup_empty in H.
Defined.

(** ** C1 *)

(** C1, as the code has it. When [ProcessIncomingCall callID ani dnis]
    succeeds it answers [ANIToSend = dnis] and [DNISToSend =] the DID it
    assigned; if that DID is one that [cleanString] leaves alone, as any
    digit string is, a later [ProcessReturnCall] for it in the same process,
    whatever the time, the ANI it carries and the reaper ticks in between,
    succeeds and answers [ANIToSend = ani] and [DNISToSend = dnis], the
    strings as they came in. *)
Theorem round_trip_identity now rnd callID ani dnis (r : Router) resp :
  (ProcessIncomingCall now rnd callID ani dnis r).2 = Ok resp →
  cleanString (CallResponse.DIDAssigned resp) = CallResponse.DIDAssigned resp →
  CallResponse.ANIToSend resp = dnis ∧
  CallResponse.DNISToSend resp = CallResponse.DIDAssigned resp ∧
  ∀ ticks now' ani2, Forall is_tick ticks →
    ∃ r2 resp2,
      ProcessReturnCall now' ani2 (CallResponse.DIDAssigned resp)
        (run ticks (ProcessIncomingCall now rnd callID ani dnis r).1) = (r2, Ok resp2) ∧
      CallResponse.ANIToSend resp2 = ani ∧
      CallResponse.DNISToSend resp2 = dnis.
Proof.
  intros Hok Hclean.
  destruct (ProcessIncomingCall_Ok _ _ _ _ _ _ _ Hok) as (did & _ & -> & Hacm & Hdcm).
  simpl in *. split; [done|]. split; [done|].
  intros ticks now' ani2 Hticks.
  destruct (run_ticks_maps ticks (ProcessIncomingCall now rnd callID ani dnis r).1 Hticks)
    as [Ha Hd].
  eexists _, _. split.
  - eapply ProcessReturnCall_hit.
    + rewrite Hclean, Hd, Hdcm. apply lookup_insert_eq.
    + rewrite Ha, Hacm. apply lookup_insert_eq.
  - done.
Qed.

Lemma round_trip_identity_witness :
  ∃ r2 resp2,
    ProcessReturnCall 400 "222" "15550001"
      (run [OpCleanup 330; OpCleanup 360]
           (ProcessIncomingCall 0 0 "c1" "111" "222" (router0 true)).1) = (r2, Ok resp2) ∧
    CallResponse.ANIToSend resp2 = "111" ∧
    CallResponse.DNISToSend resp2 = "222".
Proof.
  refine (proj2 (proj2 (round_trip_identity 0 0 "c1" "111" "222" (router0 true)
            (CallResponse.mk "success" "15550001" "trunk-s3" "222" "15550001") _ _))
            [OpCleanup 330; OpCleanup 360] 400%Z "222" _).
  - vm_compute. reflexivity.
  - vm_compute. reflexivity.
  - repeat constructor; eexists; reflexivity.
Defined.

(** The claim as written covers every DID of the pool.  [ProcessIncomingCall]
    binds the DID as the pool has it, [ProcessReturnCall] looks up what
    [cleanString] makes of its argument.  In [router_lf] the one DID of the
    pool ends in a line feed: the call is given it, and the return for that
    very DID finds neither the index entry nor the ledger row and fails,
    leaving the call FORWARDED. *)
Lemma round_trip_fails_on_unclean_did :
  ProcessIncomingCall 0 0 "c1" "111" "222" router_lf
    = (router_lf_forwarded, Ok (CallResponse.mk "success" did_lf "trunk-s3" "222" did_lf)) ∧
  cleanString did_lf = "15550001" ∧
  ProcessReturnCall 5 "222" did_lf router_lf_forwarded
    = (router_lf_forwarded, Err (ErrNoActiveCall "15550001")).
Proof. repeat split; vm_compute; reflexivity. Qed.

(** ** C2 *)

Lemma ProcessIncomingCall_Err now rnd callID ani dnis r e :
  (ProcessIncomingCall now rnd callID ani dnis r).2 = Err e →
  (ProcessIncomingCall now rnd callID ani dnis r).1 = r.
Proof.
  unfold ProcessIncomingCall.
  destruct (getAvailableDID rnd (db r)) as [did|e'] eqn:E; [|done].
  by destruct (markDIDInUse now did dnis (db r)).
Qed.

Lemma storeCallRecord_dids record d d1 :
  storeCallRecord record d = Ok d1 → tbl_dids d1 = tbl_dids d.
Proof. unfold storeCallRecord. destruct (call_records_updated_at d); [|done]. by intros [= <-]. Qed.

(** The acquisition: the DID handed out was free, its row is now in use and
    bound to [dnis], and no other row of [dids] changed. *)
Lemma ProcessIncomingCall_dids now rnd callID ani dnis r resp :
  (ProcessIncomingCall now rnd callID ani dnis r).2 = Ok resp →
  ∃ x, tbl_dids (db r) !! CallResponse.DIDAssigned resp = Some x ∧
       dids.in_use x = false ∧
       tbl_dids (db (ProcessIncomingCall now rnd callID ani dnis r).1) =
         <[CallResponse.DIDAssigned resp := dids.mk true (Some dnis) (dids.country x) now]>
           (tbl_dids (db r)).
Proof.
  unfold ProcessIncomingCall.
  destruct (getAvailableDID rnd (db r)) as [did|e] eqn:E; [|done].
  apply getAvailableDID_Ok in E.
  destruct (markDIDInUse_free now did dnis _ E) as [d1 Hm]. rewrite Hm.
  apply markDIDInUse_Ok in Hm as (x & Hx & ->).
  apply elem_of_free_dids in E as (x' & Hx' & Hfree).
  assert (x' = x) as -> by congruence.
  simpl. intros [= <-]. exists x. simpl.
  split; [done|]. split; [done|].
  destruct (storeCallRecord _ _) as [d1|] eqn:Es; [|done].
  by rewrite (storeCallRecord_dids _ _ _ Es).
Qed.

Lemma ProcessIncomingCall_free now rnd callID ani dnis r resp :
  (ProcessIncomingCall now rnd callID ani dnis r).2 = Ok resp →
  CallResponse.DIDAssigned resp ∈ free_dids (db r) ∧
  ∀ did, did ∈ free_dids (db (ProcessIncomingCall now rnd callID ani dnis r).1) ↔
         did ∈ free_dids (db r) ∧ did ≠ CallResponse.DIDAssigned resp.
Proof.
  intros Hok. destruct (ProcessIncomingCall_dids _ _ _ _ _ _ _ Hok) as (x & Hx & Hfree & Heq).
  split; [apply elem_of_free_dids; eauto|].
  intros did. rewrite !elem_of_free_dids, Heq. split.
  - intros (y & Hy & Hyfree). apply lookup_insert_Some in Hy as [[_ <-]|[Hne Hy]]; [done|].
    split; [eauto|congruence].
  - intros [(y & Hy & Hyfree) Hne]. exists y. by rewrite lookup_insert_ne.
Qed.

(** C2. Calls of [ProcessIncomingCall] racing on a pool with [N] free DIDs
    are served in the order they get [r.mu]; whatever that order and
    whatever the draws, the DID a call is given was free when the call took
    it and is in use when the next call looks, so the calls that succeed get
    pairwise distinct DIDs, all of them free at the start, and at most [N]
    calls succeed. *)
Theorem no_double_allocation (schedule : list incoming) (r : Router) :
  NoDup (assigned (serve schedule r).2) ∧
  (∀ did, did ∈ assigned (serve schedule r).2 → did ∈ free_dids (db r)) ∧
  (length (assigned (serve schedule r).2) ≤ length (free_dids (db r)))%nat.
Proof.
  revert r. induction schedule as [|q rest IH]; intros r; simpl.
  - split; [constructor|]. split; [by intros ? ?%elem_of_nil|lia].
  - destruct (ProcessIncomingCall (in_now q) (in_rnd q) (in_callID q) (in_ani q) (in_dnis q) r)
      as [r1 res] eqn:E.
    specialize (IH r1). destruct (serve rest r1) as [r2 out] eqn:Es. simpl in *.
    destruct IH as (Hnd & Hsub & Hlen).
    assert (Hres : (ProcessIncomingCall (in_now q) (in_rnd q) (in_callID q) (in_ani q)
                      (in_dnis q) r).2 = res) by by rewrite E.
    assert (Hr1 : (ProcessIncomingCall (in_now q) (in_rnd q) (in_callID q) (in_ani q)
                      (in_dnis q) r).1 = r1) by by rewrite E.
    destruct res as [resp|e]; simpl.
    + destruct (ProcessIncomingCall_free _ _ _ _ _ _ _ Hres) as [Hfree Hiff].
      rewrite Hr1 in Hiff.
      assert (Hfresh : CallResponse.DIDAssigned resp ∉ assigned out).
      { intros Hin. apply Hsub, Hiff in Hin as [_ Hne]. done. }
      split; [by constructor|]. split.
      * intros did [->|Hin]%elem_of_cons; [done|]. by apply Hsub, Hiff in Hin as [? _].
      * assert (Hsm : CallResponse.DIDAssigned resp :: free_dids (db r1) ⊆+ free_dids (db r)).
        { apply NoDup_submseteq.
          - constructor; [|apply NoDup_free_dids]. intros Hin. by apply Hiff in Hin as [_ ?].
          - intros did [->|Hin]%elem_of_cons; [done|]. by apply Hiff in Hin as [? _]. }
        apply submseteq_length in Hsm. simpl in Hsm. lia.
    + apply ProcessIncomingCall_Err in Hres. rewrite Hr1 in Hres. subst r1. done.
Qed.

(** ** C3 *)

Lemma stale_expire now x :
  stale now x = true →
  expire now x = call_records.set_end_time (Some now) (call_records.set_status CallStateFailed x).
Proof. unfold expire. by intros ->. Qed.

Lemma stale_returned now x :
  call_records.status x = CallStateReturned → expire now x = x.
Proof. unfold expire, stale. by intros ->. Qed.

Lemma cleanupStaleCalls_rows now r :
  tbl_call_records (db (cleanupStaleCalls now r)) = expire now <$> tbl_call_records (db r).
Proof. unfold cleanupStaleCalls. by destruct (_ <? _)%nat. Qed.

Lemma cleanupStaleCalls_dids_lookup now r did :
  tbl_dids (db (cleanupStaleCalls now r)) !! did =
    if (0 <? length (List.filter (stale now) (tbl_call_records (db r))))%nat
         && joined now (expire now <$> tbl_call_records (db r)) did
    then release_row now <$> tbl_dids (db r) !! did
    else tbl_dids (db r) !! did.
Proof.
  unfold cleanupStaleCalls. destruct (_ <? _)%nat; simpl; [|done].
  rewrite map_lookup_imap. destruct (tbl_dids (db r) !! did) as [x|]; simpl.
  - by destruct (joined _ _ _).
  - by destruct (joined _ _ _).
Qed.

Lemma filter_nonempty {A} (f : A → bool) (l : list A) (x : A) :
  x ∈ l → f x = true → (0 <? length (List.filter f l))%nat = true.
Proof.
  intros Hin Hf. apply Nat.ltb_lt.
  assert (x ∈ List.filter f l) as Hx.
  { apply list_elem_of_In, filter_In. split; [by apply list_elem_of_In|done]. }
  destruct (List.filter f l); [by apply elem_of_nil in Hx|simpl; lia].
Qed.

(** The expiry of a stale row makes the join reach its DID. *)
Lemma joined_expired now rows x :
  x ∈ rows → stale now x = true →
  joined now (expire now <$> rows) (call_records.assigned_did x) = true.
Proof.
  intros Hin Hst. unfold joined. apply existsb_exists. exists (expire now x). split.
  - apply list_elem_of_In, list_elem_of_fmap. eauto.
  - rewrite (stale_expire _ _ Hst). simpl. rewrite bool_decide_eq_true_2 by done. simpl.
    unfold recently_failed. simpl. apply Z.ltb_lt. lia.
Qed.

(** C3, as the code has it. A ledger row in status ACTIVE or FORWARDED whose
    [start_time] lies more than five minutes back is, after one run of
    [cleanupStaleCalls], in status FAILED with [end_time] the time of the
    run, and the row of its DID, when the pool has one, is not in use, has
    no destination and is among the free DIDs.  A row in status RETURNED is
    left as it is, however old. *)
Theorem reaper_expires_active_forwarded now (r : Router) (i : nat) (x : call_records.row) :
  tbl_call_records (db r) !! i = Some x →
  (call_records.status x = CallStateActive ∨ call_records.status x = CallStateForwarded
     → (call_records.start_time x < now - 300)%Z
     → tbl_call_records (db (cleanupStaleCalls now r)) !! i =
         Some (call_records.set_end_time (Some now)
                 (call_records.set_status CallStateFailed x)) ∧
       (∀ d, tbl_dids (db r) !! call_records.assigned_did x = Some d →
             tbl_dids (db (cleanupStaleCalls now r)) !! call_records.assigned_did x =
               Some (release_row now d) ∧
             dids.in_use (release_row now d) = false ∧
             call_records.assigned_did x ∈ free_dids (db (cleanupStaleCalls now r)))) ∧
  (call_records.status x = CallStateReturned
     → tbl_call_records (db (cleanupStaleCalls now r)) !! i = Some x).
Proof.
  intros Hi. split.
  - intros Hst Hold.
    assert (stale now x = true) as Hstale.
    { unfold stale. destruct Hst as [-> | ->]; apply Z.ltb_lt; lia. }
    assert (x ∈ tbl_call_records (db r)) as Hin by by eapply list_elem_of_lookup_2.
    split.
    + rewrite cleanupStaleCalls_rows, list_lookup_fmap, Hi. simpl.
      by rewrite (stale_expire _ _ Hstale).
    + intros d Hd.
      assert (tbl_dids (db (cleanupStaleCalls now r)) !! call_records.assigned_did x =
                Some (release_row now d)) as Hrel.
      { rewrite cleanupStaleCalls_dids_lookup.
        rewrite (filter_nonempty _ _ _ Hin Hstale), (joined_expired _ _ _ Hin Hstale).
        simpl. by rewrite Hd. }
      split; [done|]. split; [done|].
      apply elem_of_free_dids. eauto.
  - intros Hret. rewrite cleanupStaleCalls_rows, list_lookup_fmap, Hi. simpl.
    by rewrite (stale_returned _ _ Hret).
Qed.

Lemma reaper_expires_active_forwarded_witness :
  call_records.status <$> tbl_call_records (db router_forwarded) = [CallStateForwarded] ∧
  call_records.status <$> tbl_call_records (db (cleanupStaleCalls 301 router_forwarded))
    = [CallStateFailed] ∧
  "15550001" ∈ free_dids (db (cleanupStaleCalls 301 router_forwarded)).
Proof.
  split; [vm_compute; reflexivity|].
  destruct (reaper_expires_active_forwarded 301 router_forwarded 0
              (call_records.mk "c1" "111" "222" "15550001" CallStateForwarded 0 None 0
                 "/var/spool/asterisk/recordings/c1.wav")) as [H _].
  { vm_compute. reflexivity. }
  destruct H as [Hrow Hdid].
  { right. reflexivity. }
  { simpl. lia. }
  split.
  - rewrite cleanupStaleCalls_rows in *. vm_compute. reflexivity.
  - destruct (Hdid (dids.mk true (Some "222") "US" 0)) as (_ & _ & Hfree).
    { vm_compute. reflexivity. }
    exact Hfree.
Defined.

(** The claim as written also covers RETURNED: there the reaper does nothing.
    The call of [router_returned] started at second 0; at second 1000 its row
    is still RETURNED and its DID still in use. *)
Lemma reaper_skips_returned :
  ∃ x, tbl_call_records (db router_returned) = [x] ∧
       call_records.status x = CallStateReturned ∧
       (call_records.start_time x < 1000 - 300)%Z ∧
       tbl_call_records (db (cleanupStaleCalls 1000 router_returned)) = [x] ∧
       dids.in_use <$> tbl_dids (db (cleanupStaleCalls 1000 router_returned))
                         !! call_records.assigned_did x = Some true.
Proof.
  eexists. split; [vm_compute; reflexivity|]. simpl.
  split; [reflexivity|]. split; [lia|]. split; vm_compute; reflexivity.
Qed.

(** ** C5 *)

Lemma remember_rows_snoc r rows x :
  remember_rows r (rows ++ [x]) = remember (remember_rows r rows) (record_of_row x).
Proof. unfold remember_rows. by rewrite foldl_app. Qed.

Lemma remember_rows_db r rows :
  db (remember_rows r rows) = db r ∧ recordingPath (remember_rows r rows) = recordingPath r.
Proof.
  induction rows as [|x rows IH] using rev_ind; [done|].
  by rewrite remember_rows_snoc.
Qed.

Lemma remember_rows_did r rows d c :
  didToCallMap (remember_rows r rows) !! d = Some c →
  didToCallMap r !! d = Some c ∨
  ∃ x, x ∈ rows ∧ call_records.assigned_did x = d ∧ call_records.call_id x = c.
Proof.
  induction rows as [|x rows IH] using rev_ind; [by left|].
  rewrite remember_rows_snoc. simpl. intros H.
  apply lookup_insert_Some in H as [[<- <-]|[_ H]].
  - right. exists x. split; [apply elem_of_app; right; apply list_elem_of_here|done].
  - destruct (IH H) as [?|(y & ? & ? & ?)]; [by left|].
    right. exists y. split; [by apply elem_of_app; left|done].
Qed.

Lemma remember_rows_call r rows c record :
  activeCallsMap (remember_rows r rows) !! c = Some record →
  activeCallsMap r !! c = Some record ∨
  ∃ x, x ∈ rows ∧ call_records.call_id x = c ∧ record = record_of_row x.
Proof.
  induction rows as [|x rows IH] using rev_ind; [by left|].
  rewrite remember_rows_snoc. simpl. intros H.
  apply lookup_insert_Some in H as [[<- <-]|[_ H]].
  - right. exists x. split; [apply elem_of_app; right; apply list_elem_of_here|done].
  - destruct (IH H) as [?|(y & ? & ? & ?)]; [by left|].
    right. exists y. split; [by apply elem_of_app; left|done].
Qed.

Lemma remember_rows_bound r rows x :
  x ∈ rows →
  is_Some (didToCallMap (remember_rows r rows) !! call_records.assigned_did x) ∧
  is_Some (activeCallsMap (remember_rows r rows) !! call_records.call_id x).
Proof.
  induction rows as [|y rows IH] using rev_ind; [by intros ?%elem_of_nil|].
  rewrite remember_rows_snoc. simpl. intros [Hin|Heq%list_elem_of_singleton]%elem_of_app;
    [|subst y; rewrite !lookup_insert_eq; eauto].
  destruct (IH Hin) as [Hd Hc]. split.
    + destruct (decide (call_records.assigned_did y = call_records.assigned_did x)) as [<-|Hne].
      * rewrite lookup_insert_eq. eauto.
      * by rewrite lookup_insert_ne.
    + destruct (decide (call_records.call_id y = call_records.call_id x)) as [<-|Hne].
      * rewrite lookup_insert_eq. eauto.
      * by rewrite lookup_insert_ne.
Qed.

(** [call_id] is a [UNIQUE] key. *)
Lemma unique_call_id (rows : list call_records.row) x y :
  NoDup (call_records.call_id <$> rows) →
  x ∈ rows → y ∈ rows → call_records.call_id x = call_records.call_id y → x = y.
Proof.
  induction rows as [|z rows IH]; simpl; [by intros _ ?%elem_of_nil|].
  intros [Hz Hnd]%NoDup_cons [->|Hx]%elem_of_cons [->|Hy]%elem_of_cons Heq; auto.
  - exfalso. apply Hz. rewrite Heq. apply list_elem_of_fmap. eauto.
  - exfalso. apply Hz. rewrite <- Heq. apply list_elem_of_fmap. eauto.
Qed.

Lemma elem_of_filter_restorable now (rows : list call_records.row) x :
  x ∈ List.filter (restorable now) rows ↔ x ∈ rows ∧ restorable now x = true.
Proof. rewrite !list_elem_of_In. apply filter_In. Qed.

(** C5, as the code has it. On a ledger whose call ids are unique, throwing
    the index away and running the startup rebuild puts every row that is
    ACTIVE, FORWARDED or RETURNED and younger than five minutes back under
    its call id.  A later [ProcessReturnCall] whose DID [cleanString] turns
    into the DID of such a row succeeds from the index with the ANI and DNIS
    the ledger holds for a rebuilt row bound to that DID: the row's own when
    no other rebuilt row carries the DID.  That is the answer the same
    request had before the restart, whenever the index then held a record
    with these numbers for the DID. *)
Theorem restart_restores now (r : Router) (x : call_records.row) :
  NoDup (call_records.call_id <$> tbl_call_records (db r)) →
  x ∈ tbl_call_records (db r) →
  restorable now x = true →
  activeCallsMap (restart now r) !! call_records.call_id x = Some (record_of_row x) ∧
  ∀ now' ani2 did, cleanString did = call_records.assigned_did x →
    ∃ y r2,
      y ∈ tbl_call_records (db r) ∧ restorable now y = true ∧
      call_records.assigned_did y = call_records.assigned_did x ∧
      ProcessReturnCall now' ani2 did (restart now r) =
        (r2, Ok (CallResponse.mk "success" EmptyString "trunk-s4"
                   (call_records.original_ani y) (call_records.original_dnis y))) ∧
      ((∀ z, z ∈ tbl_call_records (db r) → restorable now z = true →
             call_records.assigned_did z = call_records.assigned_did x → z = x) → y = x) ∧
      (∀ callID record,
         didToCallMap r !! call_records.assigned_did x = Some callID →
         activeCallsMap r !! callID = Some record →
         CallRecord.OriginalANI record = call_records.original_ani y →
         CallRecord.OriginalDNIS record = call_records.original_dnis y →
         (ProcessReturnCall now' ani2 did (restart now r)).2
           = (ProcessReturnCall now' ani2 did r).2).
Proof.
  intros Hnd Hin Hres. unfold restart, NewRouter, restoreActiveCalls. simpl.
  set (rows := List.filter (restorable now) (tbl_call_records (db r))).
  set (r0 := mkRouter (db r) ∅ ∅ "/var/spool/asterisk/recordings").
  assert (Hx : x ∈ rows) by by apply elem_of_filter_restorable.
  assert (Hrec : ∀ y, y ∈ rows →
            activeCallsMap (remember_rows r0 rows) !! call_records.call_id y
              = Some (record_of_row y)).
  { intros y Hy. destruct (remember_rows_bound r0 rows y Hy) as [_ [rec Hrec]].
    destruct (remember_rows_call _ _ _ _ Hrec) as [H|(z & Hz & Hid & ->)].
    - unfold r0 in H. simpl in H. by rewrite lookup_empty in H.
    - rewrite Hrec. f_equal. f_equal.
      apply elem_of_filter_restorable in Hy as [Hy _].
      apply elem_of_filter_restorable in Hz as [Hz _].
      by apply (unique_call_id _ _ _ Hnd). }
  split; [by apply Hrec|].
  intros now' ani2 did Hclean.
  destruct (remember_rows_bound r0 rows x Hx) as [[c Hc] _].
  destruct (remember_rows_did _ _ _ _ Hc) as [H|(y & Hy & Hdid & <-)].
  { unfold r0 in H. simpl in H. by rewrite lookup_empty in H. }
  exists y. eexists.
  apply elem_of_filter_restorable in Hy as Hy'. destruct Hy' as [Hy1 Hy2].
  assert (Hafter : ProcessReturnCall now' ani2 did (remember_rows r0 rows) =
            (mkRouter (updateCallStatus now' (call_records.call_id y) CallStateReturned
                         (db (remember_rows r0 rows)))
                      (activeCallsMap (remember_rows r0 rows))
                      (didToCallMap (remember_rows r0 rows))
                      (recordingPath (remember_rows r0 rows)),
             Ok (CallResponse.mk "success" EmptyString "trunk-s4"
                   (call_records.original_ani y) (call_records.original_dnis y)))).
  { rewrite (ProcessReturnCall_hit now' ani2 did _ (call_records.call_id y) (record_of_row y));
      [reflexivity|by rewrite Hclean|by apply Hrec]. }
  split; [done|]. split; [done|]. split; [done|]. split; [exact Hafter|].
  split; [intros Huniq; by apply Huniq|].
  intros callID record Hd Ha Hani Hdnis.
  rewrite Hafter. simpl.
  rewrite (ProcessReturnCall_hit now' ani2 did r callID record);
    [by rewrite Hani, Hdnis|by rewrite Hclean|done].
Qed.

Lemma restart_restores_witness :
  (∃ r2, ProcessReturnCall 20 "222" "15550001" (restart 10 router_forwarded) =
           (r2, Ok (CallResponse.mk "success" EmptyString "trunk-s4" "111" "222"))) ∧
  (ProcessReturnCall 20 "222" "15550001" (restart 10 router_forwarded)).2
    = (ProcessReturnCall 20 "222" "15550001" router_forwarded).2.
Proof.
  destruct (restart_restores 10 router_forwarded
              (call_records.mk "c1" "111" "222" "15550001" CallStateForwarded 0 None 0
                 "/var/spool/asterisk/recordings/c1.wav")) as [_ H].
  - vm_compute. repeat constructor. by intros ?%elem_of_nil.
  - vm_compute. apply list_elem_of_here.
  - vm_compute. reflexivity.
  - destruct (H 20%Z "222" "15550001") as (y & r2 & Hy & _ & _ & Hret & Hx & Hsame).
    + vm_compute. reflexivity.
    + assert (Hyx : y = call_records.mk "c1" "111" "222" "15550001" CallStateForwarded 0 None 0
                          "/var/spool/asterisk/recordings/c1.wav").
      { apply Hx. intros z Hz _ _. vm_compute in Hz. by apply list_elem_of_singleton in Hz. }
      subst y. split.
      * exists r2. rewrite Hret. reflexivity.
      * apply (Hsame "c1" (CallRecord.mk 0 "c1" "111" "222" "15550001" CallStateActive 0 None 0
                             "/var/spool/asterisk/recordings/c1.wav"));
          vm_compute; reflexivity.
Defined.

(** The claim as written has the return for the DID of every rebuilt row
    succeed, with the answer it had before the restart.

    [ProcessReturnCall] looks up what [cleanString] makes of its argument,
    the rebuild keys the index by the DID as the ledger has it.  In
    [router_lf_forwarded] the row of the call c1 carries a DID that ends in
    a line feed; the row is rebuilt at second 10, bound to that DID, and the
    return for that very DID fails.

    The answer comes from the index before the restart and from the ledger
    after it.  In [router_twice] the call id c1 came in twice:
    [storeCallRecord] keeps the numbers of the first call in the ledger row
    and takes the DID of the second, the index holds the numbers of the
    second.  The row is rebuilt, and the return for its DID answers 333/444
    before the restart and 111/222 after it. *)
Lemma restart_not_equivalent :
  ((∃ x, tbl_call_records (db router_lf_forwarded) = [x] ∧
         restorable 10 x = true ∧ call_records.assigned_did x = did_lf) ∧
   didToCallMap (restart 10 router_lf_forwarded) !! did_lf = Some "c1" ∧
   (ProcessReturnCall 20 "222" did_lf (restart 10 router_lf_forwarded)).2
     = Err (ErrNoActiveCall "15550001")) ∧
  ((∃ x, tbl_call_records (db router_twice) = [x] ∧
         restorable 10 x = true ∧ call_records.assigned_did x = "15550002") ∧
   (ProcessReturnCall 20 "444" "15550002" router_twice).2
     = Ok (CallResponse.mk "success" EmptyString "trunk-s4" "333" "444") ∧
   (ProcessReturnCall 20 "444" "15550002" (restart 10 router_twice)).2
     = Ok (CallResponse.mk "success" EmptyString "trunk-s4" "111" "222")).
Proof.
  split.
  - split; [eexists; split; [vm_compute; reflexivity|split; vm_compute; reflexivity]|].
    split; vm_compute; reflexivity.
  - split; [eexists; split; [vm_compute; reflexivity|split; vm_compute; reflexivity]|].
    split; vm_compute; reflexivity.
Qed.

(** ** C6 *)

Lemma foldl_later acc (rows : list call_records.row) x :
  foldl later acc rows = Some x → acc = Some x ∨ x ∈ rows.
Proof.
  revert acc. induction rows as [|y rows IH]; intros acc; simpl; [by left|].
  intros H. destruct (IH _ H) as [Hacc|Hin].
  - unfold later in Hacc. destruct acc as [z|].
    + destruct (_ <? _)%Z; [|by left].
      injection Hacc as ->. right. apply list_elem_of_here.
    + injection Hacc as ->. right. apply list_elem_of_here.
  - right. by apply list_elem_of_further.
Qed.

Lemma getCallRecordByDID_Ok now did d record :
  getCallRecordByDID now did d = Ok record →
  ∃ x, x ∈ tbl_call_records d ∧ call_records.assigned_did x = did ∧
       restorable now x = true ∧ record = record_of_row x.
Proof.
  unfold getCallRecordByDID. destruct (foldl later None _) as [x|] eqn:E; [|done].
  intros [= <-]. apply foldl_later in E as [?|Hin]; [done|].
  apply list_elem_of_In, filter_In in Hin as [Hin Hx].
  apply andb_prop in Hx as [Hdid Hres]. apply bool_decide_eq_true in Hdid.
  exists x. by rewrite list_elem_of_In.
Qed.

(** The index after [ProcessReturnCall]: as before, or with the one record
    the ledger gave for a DID the index did not know. *)
Lemma ProcessReturnCall_maps now ani2 did r :
  (activeCallsMap (ProcessReturnCall now ani2 did r).1 = activeCallsMap r ∧
   didToCallMap (ProcessReturnCall now ani2 did r).1 = didToCallMap r) ∨
  (∃ x, x ∈ tbl_call_records (db r) ∧
        call_records.assigned_did x = cleanString did ∧ restorable now x = true ∧
        didToCallMap r !! cleanString did = None ∧
        ProcessReturnCall now ani2 did r =
          (remember (mkRouter (updateCallStatus now (call_records.call_id x)
                                 CallStateReturned (db r))
                              (activeCallsMap r) (didToCallMap r) (recordingPath r))
                    (record_of_row x),
           Ok (CallResponse.mk "success" EmptyString "trunk-s4"
                 (call_records.original_ani x) (call_records.original_dnis x)))).
Proof.
  unfold ProcessReturnCall.
  destruct (didToCallMap r !! cleanString did) as [callID|] eqn:Ed.
  - left. by destruct (activeCallsMap r !! callID).
  - destruct (getCallRecordByDID now (cleanString did) (db r)) as [record|e] eqn:Eg.
    + apply getCallRecordByDID_Ok in Eg as (x & Hin & Hdid & Hres & ->).
      right. exists x. simpl. rewrite lookup_insert_eq. unfold remember. simpl.
      by rewrite Hdid.
    + by left.
Qed.

Lemma remember_index_inv r record :
  index_inv r → index_inv (remember r record).
Proof.
  intros [H1 H2]. split; simpl.
  - intros did callID [[_ <-]|[_ H]]%lookup_insert_Some.
    + rewrite lookup_insert_eq. eauto.
    + destruct (decide (CallRecord.CallID record = callID)) as [<-|Hne].
      * rewrite lookup_insert_eq. eauto.
      * rewrite lookup_insert_ne by done. eauto.
  - intros callID rec [[<- <-]|[_ H]]%lookup_insert_Some.
    + rewrite lookup_insert_eq. eauto.
    + destruct (H2 _ _ H) as [Hid Hsome]. split; [done|].
      destruct (decide (CallRecord.AssignedDID record = CallRecord.AssignedDID rec)) as [<-|Hne].
      * rewrite lookup_insert_eq. eauto.
      * by rewrite lookup_insert_ne.
Qed.

Lemma index_inv_maps r r' :
  activeCallsMap r' = activeCallsMap r → didToCallMap r' = didToCallMap r →
  index_inv r → index_inv r'.
Proof. unfold index_inv. by intros -> ->. Qed.

Lemma remember_rows_index_inv r rows :
  index_inv r → index_inv (remember_rows r rows).
Proof.
  intros H. induction rows as [|x rows IH] using rev_ind; [done|].
  rewrite remember_rows_snoc. by apply remember_index_inv.
Qed.

Lemma step_index_inv r o : index_inv r → index_inv (step r o).
Proof.
  intros Hinv. destruct o as [now rnd callID ani dnis|now ani2 did|now|now]; simpl.
  - destruct (ProcessIncomingCall now rnd callID ani dnis r).2 as [resp|e] eqn:E.
    + destruct (ProcessIncomingCall_Ok _ _ _ _ _ _ _ E) as (did & _ & _ & Ha & Hd).
      eapply (index_inv_maps
                (remember r (CallRecord.mk 0 callID ani dnis did CallStateActive now None 0
                               (recordingPath r ++ "/" ++ callID ++ ".wav")))); [done..|].
      by apply remember_index_inv.
    + by rewrite (ProcessIncomingCall_Err _ _ _ _ _ _ _ E).
  - destruct (ProcessReturnCall_maps now ani2 did r) as [[Ha Hd]|(x & _ & _ & _ & _ & ->)].
    + by eapply index_inv_maps.
    + simpl. eapply (index_inv_maps (remember r (record_of_row x))); [done..|].
      by apply remember_index_inv.
  - by apply remember_rows_index_inv.
  - destruct (cleanupStaleCalls_maps now r) as [Ha Hd]. by eapply index_inv_maps.
Qed.

Lemma run_index_inv ops r : index_inv r → index_inv (run ops r).
Proof.
  revert r. induction ops as [|o ops IH]; intros r H; [done|].
  apply IH. by apply step_index_inv.
Qed.

Lemma NewRouter_index_inv now existing : index_inv (NewRouter now existing).
Proof.
  apply remember_rows_index_inv. split; simpl; intros ? ? H; by rewrite lookup_empty in H.
Qed.

(** C6, as the code has it. In every state that [NewRouter] and then any
    sequence of [ProcessIncomingCall], [ProcessReturnCall], rebuild and
    reaper runs leads to, each entry [did -> callID] of the DID map has a
    record under [callID] in the call map, and each record of the call map
    sits under its own call id and has its DID among the keys of the DID
    map.  The record under [callID] need not carry [did], and the DID of a
    record need not lead back to it. *)
Theorem index_consistency now existing (ops : list op) :
  index_inv (run ops (NewRouter now existing)).
Proof. apply run_index_inv, NewRouter_index_inv. Qed.

(** The claim as written has the record under [callID] carry [did], and the
    DID of every record lead back to it.  After the call id c1 has come in
    twice, the DID of the first call still leads to c1, whose record carries
    the DID of the second.  And in [router_shared], where the reaper freed
    the DID of call Z and call A was given it, the record of Z still carries
    the DID, which now leads to A. *)
Lemma index_entry_outlives_binding :
  (let r := run [OpIncoming 0 0 "c1" "111" "222"; OpIncoming 3 0 "c1" "333" "444"]
                router_created in
   didToCallMap r !! "15550001" = Some "c1" ∧
   CallRecord.AssignedDID <$> activeCallsMap r !! "c1" = Some "15550002") ∧
  (CallRecord.AssignedDID <$> activeCallsMap router_shared !! "Z" = Some "15550001" ∧
   didToCallMap router_shared !! "15550001" = Some "A").
Proof. repeat split; vm_compute; reflexivity. Qed.

(** ** C10 *)

Lemma remember_dom r record :
  dom (activeCallsMap r) ⊆ dom (activeCallsMap (remember r record)) ∧
  dom (didToCallMap r) ⊆ dom (didToCallMap (remember r record)).
Proof. simpl. rewrite !dom_insert_L. split; apply union_subseteq_r. Qed.

Lemma remember_rows_dom r rows :
  dom (activeCallsMap r) ⊆ dom (activeCallsMap (remember_rows r rows)) ∧
  dom (didToCallMap r) ⊆ dom (didToCallMap (remember_rows r rows)).
Proof.
  induction rows as [|x rows [IHa IHd]] using rev_ind; [done|].
  rewrite remember_rows_snoc.
  destruct (remember_dom (remember_rows r rows) (record_of_row x)) as [Ha Hd].
  split; etrans; eauto.
Qed.

Lemma step_dom r o :
  dom (activeCallsMap r) ⊆ dom (activeCallsMap (step r o)) ∧
  dom (didToCallMap r) ⊆ dom (didToCallMap (step r o)).
Proof.
  destruct o as [now rnd callID ani dnis|now ani2 did|now|now]; simpl.
  - destruct (ProcessIncomingCall now rnd callID ani dnis r).2 as [resp|e] eqn:E.
    + destruct (ProcessIncomingCall_Ok _ _ _ _ _ _ _ E) as (did & _ & _ & -> & ->).
      rewrite !dom_insert_L. split; apply union_subseteq_r.
    + by rewrite (ProcessIncomingCall_Err _ _ _ _ _ _ _ E).
  - destruct (ProcessReturnCall_maps now ani2 did r) as [[-> ->]|(x & _ & _ & _ & _ & ->)];
      [done|].
    simpl. rewrite !dom_insert_L. split; apply union_subseteq_r.
  - apply remember_rows_dom.
  - by destruct (cleanupStaleCalls_maps now r) as [-> ->].
Qed.

Lemma run_dom ops r :
  dom (activeCallsMap r) ⊆ dom (activeCallsMap (run ops r)) ∧
  dom (didToCallMap r) ⊆ dom (didToCallMap (run ops r)).
Proof.
  revert r. induction ops as [|o ops IH]; intros r; [done|].
  destruct (step_dom r o) as [Ha Hd]. destruct (IH (step r o)) as [Ha' Hd'].
  split; etrans; eauto.
Qed.

(** C10, as the code has it. No operation of the engine takes a key out of
    either map: each step leaves the key sets of both at least what they
    were.  So once a [ProcessIncomingCall] of this process has bound a DID
    that [cleanString] leaves alone, whatever runs afterwards, returns for
    the same DID and reaper runs that fail the call in the ledger included,
    and however late, [ProcessReturnCall] for that DID finds the DID and a
    record in the index, succeeds with that record's numbers, and leaves the
    index as it found it. *)
Theorem index_never_shrinks :
  (∀ (r : Router) (o : op),
     dom (activeCallsMap r) ⊆ dom (activeCallsMap (step r o)) ∧
     dom (didToCallMap r) ⊆ dom (didToCallMap (step r o))) ∧
  (∀ now0 existing (before : list op) now rnd callID ani dnis resp (after : list op),
     (ProcessIncomingCall now rnd callID ani dnis
        (run before (NewRouter now0 existing))).2 = Ok resp →
     cleanString (CallResponse.DIDAssigned resp) = CallResponse.DIDAssigned resp →
     ∀ now' ani2, ∃ callID' record,
       let r1 := run after (ProcessIncomingCall now rnd callID ani dnis
                              (run before (NewRouter now0 existing))).1 in
       didToCallMap r1 !! CallResponse.DIDAssigned resp = Some callID' ∧
       activeCallsMap r1 !! callID' = Some record ∧
       ProcessReturnCall now' ani2 (CallResponse.DIDAssigned resp) r1 =
         (mkRouter (updateCallStatus now' callID' CallStateReturned (db r1))
                   (activeCallsMap r1) (didToCallMap r1) (recordingPath r1),
          Ok (CallResponse.mk "success" EmptyString "trunk-s4"
                (CallRecord.OriginalANI record) (CallRecord.OriginalDNIS record)))).
Proof.
  split; [apply step_dom|].
  intros now0 existing before now rnd callID ani dnis resp after Hok Hclean now' ani2.
  set (r := run before (NewRouter now0 existing)) in *.
  set (r1 := run after (ProcessIncomingCall now rnd callID ani dnis r).1).
  assert (index_inv r1) as [Hinv _].
  { apply run_index_inv.
    change (index_inv (step r (OpIncoming now rnd callID ani dnis))).
    apply step_index_inv, run_index_inv, NewRouter_index_inv. }
  destruct (ProcessIncomingCall_Ok _ _ _ _ _ _ _ Hok) as (did & _ & -> & _ & Hd).
  simpl in *.
  assert (did ∈ dom (didToCallMap r1)) as [callID' Hc]%elem_of_dom.
  { apply (proj2 (run_dom after _)). rewrite Hd, dom_insert_L. set_solver. }
  destruct (Hinv _ _ Hc) as [record Hrec].
  exists callID', record. split; [done|]. split; [done|].
  apply ProcessReturnCall_hit; [by rewrite Hclean|done].
Qed.

Lemma index_never_shrinks_witness :
  ∃ callID' record,
    let r1 := run [OpCleanup 400; OpReturn 500 "999" "15550001"; OpCleanup 900]
                  (ProcessIncomingCall 0 0 "c1" "111" "222" (run [] (router0 true))).1 in
    didToCallMap r1 !! "15550001" = Some callID' ∧
    activeCallsMap r1 !! callID' = Some record ∧
    ProcessReturnCall 1000 "222" "15550001" r1 =
      (mkRouter (updateCallStatus 1000 callID' CallStateReturned (db r1))
                (activeCallsMap r1) (didToCallMap r1) (recordingPath r1),
       Ok (CallResponse.mk "success" EmptyString "trunk-s4"
             (CallRecord.OriginalANI record) (CallRecord.OriginalDNIS record))).
Proof.
  refine (proj2 index_never_shrinks 0%Z (Some (mkDB pool2 [] true)) [] 0%Z 0 "c1" "111" "222"
            (CallResponse.mk "success" "15550001" "trunk-s3" "222" "15550001")
            [OpCleanup 400; OpReturn 500 "999" "15550001"; OpCleanup 900] _ _ 1000%Z "222").
  - vm_compute. reflexivity.
  - vm_compute. reflexivity.
Defined.

(** The claim as written has every bound DID resolved from the index.  The
    index is keyed by the DID as the pool has it and read with what
    [cleanString] makes of the argument.  In [router_sp] the DID of the pool
    starts with a blank: it is bound to the call c9 and the key is still
    there after the reaper ran, but the return for that very DID looks up
    the trimmed string, finds no entry, finds no ledger row either, and
    fails. *)
Lemma bound_unclean_did_misses_index :
  didToCallMap router_sp !! did_sp = Some "c9" ∧
  (∃ record, activeCallsMap router_sp !! "c9" = Some record ∧
             CallRecord.AssignedDID record = did_sp) ∧
  cleanString did_sp = "15550009" ∧
  didToCallMap router_sp !! cleanString did_sp = None ∧
  ProcessReturnCall 40 "888" did_sp router_sp
    = (router_sp, Err (ErrNoActiveCall "15550009")).
Proof.
  split; [vm_compute; reflexivity|].
  split; [eexists; split; vm_compute; reflexivity|].
  repeat split; vm_compute; reflexivity.
Qed.

(** ** The ledger under the two routing operations *)

Lemma has_call_id_true callID x :
  has_call_id callID x = true ↔ call_records.call_id x = callID.
Proof. unfold has_call_id. apply bool_decide_eq_true. Qed.

Lemma update_status_row_call_id now callID st x :
  call_records.call_id (update_status_row now callID st x) = call_records.call_id x.
Proof. unfold update_status_row. by destruct (has_call_id callID x). Qed.

Lemma update_status_row_did now callID st x :
  call_records.assigned_did (update_status_row now callID st x) = call_records.assigned_did x.
Proof. unfold update_status_row. by destruct (has_call_id callID x). Qed.

Lemma update_status_row_hit now callID st x :
  call_records.call_id x = callID →
  call_records.status (update_status_row now callID st x) = st.
Proof. intros H%has_call_id_true. unfold update_status_row. by rewrite H. Qed.

Lemma update_status_row_miss now callID st x :
  call_records.call_id x ≠ callID → update_status_row now callID st x = x.
Proof.
  intros H. unfold update_status_row.
  destruct (has_call_id callID x) eqn:E; [|done]. by apply has_call_id_true in E.
Qed.

Lemma updateCallStatus_call_ids now callID st d :
  call_records.call_id <$> tbl_call_records (updateCallStatus now callID st d)
  = call_records.call_id <$> tbl_call_records d.
Proof.
  simpl. rewrite <- list_fmap_compose. apply list_fmap_ext.
  intros ? x _. apply update_status_row_call_id.
Qed.

(** After [updateCallStatus] every row of the call id has the new status. *)
Lemma updateCallStatus_status now callID st d x :
  x ∈ tbl_call_records (updateCallStatus now callID st d) →
  call_records.call_id x = callID → call_records.status x = st.
Proof.
  simpl. intros (y & -> & Hy)%list_elem_of_fmap Hid.
  rewrite update_status_row_call_id in Hid. by apply update_status_row_hit.
Qed.

Lemma existsb_has_call_id callID (rows : list call_records.row) :
  existsb (has_call_id callID) rows = true ↔ callID ∈ call_records.call_id <$> rows.
Proof.
  rewrite existsb_exists, list_elem_of_fmap. split.
  - intros (x & Hin & Hx%has_call_id_true). exists x. by rewrite list_elem_of_In.
  - intros (x & -> & Hin). exists x. by rewrite <- list_elem_of_In, has_call_id_true.
Qed.

Lemma upsert_call_ids record rows :
  call_records.call_id <$> upsert record rows =
    if existsb (has_call_id (CallRecord.CallID record)) rows
    then call_records.call_id <$> rows
    else ((call_records.call_id <$> rows) ++ [CallRecord.CallID record])%list.
Proof.
  unfold upsert. destruct (existsb _ rows).
  - rewrite <- list_fmap_compose. apply list_fmap_ext. intros ? x _. simpl.
    by destruct (has_call_id _ x).
  - by rewrite fmap_app.
Qed.

Lemma upsert_NoDup record rows :
  NoDup (call_records.call_id <$> rows) → NoDup (call_records.call_id <$> upsert record rows).
Proof.
  intros Hnd. rewrite upsert_call_ids.
  destruct (existsb _ rows) eqn:E; [done|].
  apply NoDup_app. split; [done|]. split; [|apply NoDup_singleton].
  intros c Hc Heq%list_elem_of_singleton. subst c.
  apply existsb_has_call_id in Hc. congruence.
Qed.

(** The upsert leaves a row of the call id, with the record's DID and
    status. *)
Lemma upsert_row record rows :
  ∃ x, x ∈ upsert record rows ∧
       call_records.call_id x = CallRecord.CallID record ∧
       call_records.assigned_did x = CallRecord.AssignedDID record ∧
       call_records.status x = CallRecord.Status record.
Proof.
  unfold upsert. destruct (existsb _ rows) eqn:E.
  - apply existsb_exists in E as (y & Hin%list_elem_of_In & Hy).
    eexists. split; [apply list_elem_of_fmap; eauto|].
    rewrite Hy. simpl. by apply has_call_id_true in Hy.
  - exists (row_of_record record). split; [|done].
    apply elem_of_app. right. apply list_elem_of_here.
Qed.

(** Every row of the call id carries the record's DID after the upsert. *)
Lemma upsert_did record rows x :
  x ∈ upsert record rows →
  call_records.call_id x = CallRecord.CallID record →
  call_records.assigned_did x = CallRecord.AssignedDID record.
Proof.
  unfold upsert. destruct (existsb _ rows) eqn:E.
  - intros (y & -> & Hy)%list_elem_of_fmap.
    destruct (has_call_id _ y) eqn:Ey; [done|].
    intros Hid%has_call_id_true. congruence.
  - intros [Hin|Heq%list_elem_of_singleton]%elem_of_app; [|by subst x].
    intros Hid. exfalso.
    assert (existsb (has_call_id (CallRecord.CallID record)) rows = true); [|congruence].
    apply existsb_has_call_id, list_elem_of_fmap. eauto.
Qed.

(** The ledger after a successful [ProcessIncomingCall]. *)
Lemma ProcessIncomingCall_ledger now rnd callID ani dnis r resp :
  (ProcessIncomingCall now rnd callID ani dnis r).2 = Ok resp →
  tbl_call_records (db (ProcessIncomingCall now rnd callID ani dnis r).1) =
    update_status_row now callID CallStateForwarded <$>
      (if call_records_updated_at (db r)
       then upsert (CallRecord.mk 0 callID ani dnis (CallResponse.DIDAssigned resp)
                      CallStateActive now None 0 (recordingPath r ++ "/" ++ callID ++ ".wav"))
                   (tbl_call_records (db r))
       else tbl_call_records (db r)) ∧
  call_records_updated_at (db (ProcessIncomingCall now rnd callID ani dnis r).1)
    = call_records_updated_at (db r).
Proof.
  unfold ProcessIncomingCall.
  destruct (getAvailableDID rnd (db r)) as [did|e] eqn:E; [|done].
  apply getAvailableDID_Ok in E.
  destruct (markDIDInUse_free now did dnis _ E) as [d1 Hm]. rewrite Hm. simpl.
  intros [= <-]. simpl.
  apply markDIDInUse_Ok in Hm as (x & _ & ->). unfold storeCallRecord. simpl.
  by destruct (call_records_updated_at (db r)).
Qed.

(** ** C7 *)

(** On a table that has the [updated_at] column the create is the upsert the
    ledger is meant to have: after a successful [ProcessIncomingCall] the
    ledger, its call ids still unique, holds one row for the call id, with
    the DID just assigned and status FORWARDED. *)
Lemma incoming_upserts now rnd callID ani dnis (r : Router) resp :
  call_records_updated_at (db r) = true →
  NoDup (call_records.call_id <$> tbl_call_records (db r)) →
  (ProcessIncomingCall now rnd callID ani dnis r).2 = Ok resp →
  NoDup (call_records.call_id <$>
           tbl_call_records (db (ProcessIncomingCall now rnd callID ani dnis r).1)) ∧
  ∃ x, x ∈ tbl_call_records (db (ProcessIncomingCall now rnd callID ani dnis r).1) ∧
       call_records.call_id x = callID ∧
       call_records.assigned_did x = CallResponse.DIDAssigned resp ∧
       call_records.status x = CallStateForwarded ∧
       ∀ y, y ∈ tbl_call_records (db (ProcessIncomingCall now rnd callID ani dnis r).1) →
            call_records.call_id y = callID → y = x.
Proof.
  intros Hcol Hnd Hok.
  destruct (ProcessIncomingCall_ledger _ _ _ _ _ _ _ Hok) as [Hrows _].
  rewrite Hcol in Hrows. rewrite Hrows.
  set (record := CallRecord.mk 0 callID ani dnis (CallResponse.DIDAssigned resp)
                   CallStateActive now None 0 (recordingPath r ++ "/" ++ callID ++ ".wav")).
  assert (NoDup (call_records.call_id <$>
            (update_status_row now callID CallStateForwarded <$>
               upsert record (tbl_call_records (db r))))) as Hnd'.
  { rewrite <- list_fmap_compose.
    rewrite (list_fmap_ext _ call_records.call_id).
    - by apply upsert_NoDup.
    - intros ? x _. apply update_status_row_call_id. }
  split; [done|].
  destruct (upsert_row record (tbl_call_records (db r))) as (x & Hin & Hid & Hdid & _).
  exists (update_status_row now callID CallStateForwarded x).
  split; [apply list_elem_of_fmap; eauto|].
  split; [by rewrite update_status_row_call_id, Hid|].
  split; [by rewrite update_status_row_did, Hdid|].
  split; [apply update_status_row_hit; by rewrite Hid|].
  intros y Hy Hyid. eapply unique_call_id; [exact Hnd'|done| |].
  - apply list_elem_of_fmap. eauto.
  - rewrite update_status_row_call_id, Hyid, Hid. reflexivity.
Qed.

(** C7, on the tables the program creates. [createTables] gives
    [call_records] no [updated_at] column; the statement of
    [storeCallRecord] assigns that column and is turned down, with and
    without a row of the same call id, and [ProcessIncomingCall] goes on
    after logging.  After the call id c1 has come in twice, both times
    answered with a DID, the ledger holds no row at all. *)
Theorem upsert_rejected_on_created_tables :
  call_records_updated_at (createTables None) = false ∧
  (∀ record, storeCallRecord record (db router_created) = Err (ErrUnknownColumn "updated_at")) ∧
  (ProcessIncomingCall 0 0 "c1" "111" "222" router_created).2
    = Ok (CallResponse.mk "success" "15550001" "trunk-s3" "222" "15550001") ∧
  (ProcessIncomingCall 3 0 "c1" "333" "444"
     (ProcessIncomingCall 0 0 "c1" "111" "222" router_created).1).2
    = Ok (CallResponse.mk "success" "15550002" "trunk-s3" "444" "15550002") ∧
  tbl_call_records
    (db (run [OpIncoming 0 0 "c1" "111" "222"; OpIncoming 3 0 "c1" "333" "444"]
             router_created)) = [].
Proof.
  split; [reflexivity|]. split; [intros record; reflexivity|].
  split; [vm_compute; reflexivity|]. split; vm_compute; reflexivity.
Qed.

(** ** C8 *)

Lemma ProcessReturnCall_ledger now ani2 did r resp :
  (ProcessReturnCall now ani2 did r).2 = Ok resp →
  ∃ callID,
    didToCallMap (ProcessReturnCall now ani2 did r).1 !! cleanString did = Some callID ∧
    db (ProcessReturnCall now ani2 did r).1 = updateCallStatus now callID CallStateReturned (db r) ∧
    (didToCallMap r !! cleanString did = Some callID →
       activeCallsMap (ProcessReturnCall now ani2 did r).1 = activeCallsMap r).
Proof.
  unfold ProcessReturnCall.
  destruct (didToCallMap r !! cleanString did) as [callID|] eqn:Ed.
  - destruct (activeCallsMap r !! callID) eqn:Ea; [|done].
    intros _. exists callID. simpl. by rewrite Ed.
  - destruct (getCallRecordByDID now (cleanString did) (db r)) as [record|e]; [|done].
    simpl. rewrite lookup_insert_eq. intros _. exists (CallRecord.CallID record).
    simpl. rewrite lookup_insert_eq. done.
Qed.

(** C8, as the code has it. The status transitions are written to the ledger
    only.  After a successful [ProcessIncomingCall] every ledger row of the
    call id has status FORWARDED, and there is such a row when the table
    takes the upsert, while the record the index holds under the call id
    reads ACTIVE.  After a successful [ProcessReturnCall] every ledger row
    of the call id the DID leads to has status RETURNED, and a return
    served from the index leaves the records of the index as they were. *)
Theorem status_transitions_reach_ledger :
  (∀ now rnd callID ani dnis (r : Router) resp,
     (ProcessIncomingCall now rnd callID ani dnis r).2 = Ok resp →
     let r1 := (ProcessIncomingCall now rnd callID ani dnis r).1 in
     (∀ x, x ∈ tbl_call_records (db r1) → call_records.call_id x = callID →
           call_records.status x = CallStateForwarded) ∧
     (call_records_updated_at (db r) = true →
        ∃ x, x ∈ tbl_call_records (db r1) ∧ call_records.call_id x = callID) ∧
     CallRecord.Status <$> activeCallsMap r1 !! callID = Some CallStateActive) ∧
  (∀ now ani2 did (r : Router) resp,
     (ProcessReturnCall now ani2 did r).2 = Ok resp →
     let r1 := (ProcessReturnCall now ani2 did r).1 in
     ∃ callID,
       didToCallMap r1 !! cleanString did = Some callID ∧
       (∀ x, x ∈ tbl_call_records (db r1) → call_records.call_id x = callID →
             call_records.status x = CallStateReturned) ∧
       (didToCallMap r !! cleanString did = Some callID →
          activeCallsMap r1 = activeCallsMap r)).
Proof.
  split.
  - intros now rnd callID ani dnis r resp Hok. simpl.
    destruct (ProcessIncomingCall_ledger _ _ _ _ _ _ _ Hok) as [Hrows _].
    destruct (ProcessIncomingCall_Ok _ _ _ _ _ _ _ Hok) as (did & _ & _ & Ha & _).
    split; [|split].
    + rewrite Hrows. intros x (y & -> & _)%list_elem_of_fmap Hid.
      rewrite update_status_row_call_id in Hid. by apply update_status_row_hit.
    + intros Hcol. rewrite Hrows, Hcol.
      destruct (upsert_row
                  (CallRecord.mk 0 callID ani dnis (CallResponse.DIDAssigned resp)
                     CallStateActive now None 0 (recordingPath r ++ "/" ++ callID ++ ".wav"))
                  (tbl_call_records (db r))) as (x & Hin & Hid & _).
      exists (update_status_row now callID CallStateForwarded x).
      split; [apply list_elem_of_fmap; eauto|]. by rewrite update_status_row_call_id.
    + rewrite Ha, lookup_insert_eq. done.
  - intros now ani2 did r resp Hok. simpl.
    destruct (ProcessReturnCall_ledger _ _ _ _ _ Hok) as (callID & Hd & Hdb & Hsame).
    exists callID. split; [done|]. split; [|done].
    rewrite Hdb. apply updateCallStatus_status.
Qed.

Lemma status_transitions_reach_ledger_witness :
  (call_records.status <$> tbl_call_records (db router_forwarded) = [CallStateForwarded] ∧
   CallRecord.Status <$> activeCallsMap router_forwarded !! "c1" = Some CallStateActive) ∧
  ∃ callID,
    didToCallMap router_returned !! cleanString "15550001" = Some callID ∧
    (∀ x, x ∈ tbl_call_records (db router_returned) → call_records.call_id x = callID →
          call_records.status x = CallStateReturned) ∧
    (didToCallMap router_forwarded !! cleanString "15550001" = Some callID →
       activeCallsMap router_returned = activeCallsMap router_forwarded).
Proof.
  split.
  - destruct (proj1 status_transitions_reach_ledger 0%Z 0 "c1" "111" "222" (router0 true)
                (CallResponse.mk "success" "15550001" "trunk-s3" "222" "15550001"))
      as (_ & _ & Hact).
    { vm_compute. reflexivity. }
    split; [vm_compute; reflexivity|exact Hact].
  - refine (proj2 status_transitions_reach_ledger 5%Z "222" "15550001" router_forwarded
              (CallResponse.mk "success" EmptyString "trunk-s4" "111" "222") _).
    vm_compute. reflexivity.
Defined.

(** The claim as written has the record of an index lookup read FORWARDED,
    then RETURNED.  It reads ACTIVE after the call came in and after it
    returned, while the ledger row moves on. *)
Lemma index_record_stays_active :
  (ProcessIncomingCall 0 0 "c1" "111" "222" (router0 true)).2
    = Ok (CallResponse.mk "success" "15550001" "trunk-s3" "222" "15550001") ∧
  CallRecord.Status <$> activeCallsMap router_forwarded !! "c1" = Some CallStateActive ∧
  call_records.status <$> tbl_call_records (db router_forwarded) = [CallStateForwarded] ∧
  (ProcessReturnCall 5 "222" "15550001" router_forwarded).2
    = Ok (CallResponse.mk "success" EmptyString "trunk-s4" "111" "222") ∧
  CallRecord.Status <$> activeCallsMap router_returned !! "c1" = Some CallStateActive ∧
  call_records.status <$> tbl_call_records (db router_returned) = [CallStateReturned].
Proof. repeat split; vm_compute; reflexivity. Qed.

(** ** C9 *)

Lemma upsert_other record rows x :
  x ∈ upsert record rows →
  call_records.call_id x ≠ CallRecord.CallID record → x ∈ rows.
Proof.
  unfold upsert. destruct (existsb _ rows).
  - intros (y & -> & Hy)%list_elem_of_fmap.
    destruct (has_call_id _ y) eqn:Ey; [|done].
    intros Hne. apply has_call_id_true in Ey. done.
  - intros [Hin|Heq%list_elem_of_singleton]%elem_of_app; [done|]. by subst x.
Qed.

Lemma ProcessReturnCall_db now ani2 did r :
  db (ProcessReturnCall now ani2 did r).1 = db r ∨
  ∃ callID, db (ProcessReturnCall now ani2 did r).1
            = updateCallStatus now callID CallStateReturned (db r).
Proof.
  unfold ProcessReturnCall.
  destruct (didToCallMap r !! cleanString did) as [callID|].
  - destruct (activeCallsMap r !! callID); [right; by exists callID|by left].
  - destruct (getCallRecordByDID now (cleanString did) (db r)) as [record|e]; [|by left].
    simpl. rewrite lookup_insert_eq. right. by eexists.
Qed.

Lemma step_column r o :
  call_records_updated_at (db (step r o)) = call_records_updated_at (db r).
Proof.
  destruct o as [now rnd callID ani dnis|now ani2 did|now|now]; simpl.
  - destruct (ProcessIncomingCall now rnd callID ani dnis r).2 as [resp|e] eqn:E.
    + by destruct (ProcessIncomingCall_ledger _ _ _ _ _ _ _ E) as [_ ->].
    + by rewrite (ProcessIncomingCall_Err _ _ _ _ _ _ _ E).
  - by destruct (ProcessReturnCall_db now ani2 did r) as [->|[callID ->]].
  - unfold restoreActiveCalls. by destruct (remember_rows_db r
      (List.filter (restorable now) (tbl_call_records (db r)))) as [-> _].
  - unfold cleanupStaleCalls. by destruct (_ <? _)%nat.
Qed.

Lemma joined_false now rows did :
  (∀ x, x ∈ rows → call_records.assigned_did x = did →
        call_records.status x ≠ CallStateFailed) →
  joined now rows did = false.
Proof.
  intros H. unfold joined. apply not_true_is_false.
  intros (x & Hin%list_elem_of_In & Hx)%existsb_exists.
  apply andb_prop in Hx as [Hdid%bool_decide_eq_true Hf].
  apply (H x Hin Hdid). unfold recently_failed in Hf.
  by destruct (call_records.status x).
Qed.

Lemma step_held r o did :
  call_records_updated_at (db r) = true → held did (db r) → held did (db (step r o)).
Proof.
  intros Hcol [Huse Hrows].
  destruct o as [now rnd callID ani dnis|now ani2 d|now|now]; simpl.
  - destruct (ProcessIncomingCall now rnd callID ani dnis r).2 as [resp|e] eqn:E;
      [|by rewrite (ProcessIncomingCall_Err _ _ _ _ _ _ _ E)].
    destruct (ProcessIncomingCall_dids _ _ _ _ _ _ _ E) as (x & Hx & Hfree & Hd).
    destruct (ProcessIncomingCall_ledger _ _ _ _ _ _ _ E) as [Hl _].
    rewrite Hcol in Hl.
    assert (CallResponse.DIDAssigned resp ≠ did) as Hne.
    { intros Heq. rewrite Heq in Hx. rewrite Hx in Huse. simpl in Huse. congruence. }
    split.
    + by rewrite Hd, lookup_insert_ne.
    + rewrite Hl. intros y (z & -> & Hz)%list_elem_of_fmap Hdid.
      rewrite update_status_row_did in Hdid.
      destruct (decide (call_records.call_id z = callID)) as [Hid|Hid].
      * apply upsert_did in Hz; [|done]. simpl in Hz. congruence.
      * rewrite update_status_row_miss by done.
        apply Hrows; [|done]. by apply upsert_other in Hz.
  - destruct (ProcessReturnCall_db now ani2 d r) as [->|[callID ->]]; [done|].
    split; [done|]. simpl.
    intros y (z & -> & Hz)%list_elem_of_fmap Hdid.
    rewrite update_status_row_did in Hdid.
    destruct (decide (call_records.call_id z = callID)) as [Hid|Hid].
    + left. by apply update_status_row_hit.
    + rewrite update_status_row_miss by done. by apply Hrows.
  - unfold restoreActiveCalls. by destruct (remember_rows_db r
      (List.filter (restorable now) (tbl_call_records (db r)))) as [-> _].
  - assert (∀ y, y ∈ expire now <$> tbl_call_records (db r) →
                 call_records.assigned_did y = did →
                 y ∈ tbl_call_records (db r)) as Hkeep.
    { intros y (z & -> & Hz)%list_elem_of_fmap. unfold expire.
      destruct (stale now z) eqn:Es; [|done]. simpl. intros Hdid.
      destruct (Hrows z Hz Hdid) as [Hst|Hst]; unfold stale in Es; by rewrite Hst in Es. }
    split.
    + rewrite cleanupStaleCalls_dids_lookup, joined_false; [by rewrite andb_false_r|].
      intros y Hy Hdid. destruct (Hrows y (Hkeep y Hy Hdid) Hdid) as [-> | ->]; done.
    + rewrite cleanupStaleCalls_rows. intros y Hy Hdid. by apply Hrows; [apply Hkeep|].
Qed.

Lemma run_held ops r did :
  call_records_updated_at (db r) = true → held did (db r) → held did (db (run ops r)).
Proof.
  revert r. induction ops as [|o ops IH]; intros r Hcol H; [done|].
  apply IH; [by rewrite step_column|by apply step_held].
Qed.

(** X25. Neither routing operation releases a DID, and the reaper releases
    the DIDs of rows that are FAILED with an end time in the last minute.
    On a table that takes the upsert, a DID in use that the ledger shows
    only on rows in status RETURNED or COMPLETED is such after any run of
    the engine, reaper runs included: it stays in use and out of the free
    DIDs. *)
Theorem returned_did_stays_in_use (ops : list op) (r : Router) (did : string) :
  call_records_updated_at (db r) = true →
  held did (db r) →
  held did (db (run ops r)) ∧ did ∉ free_dids (db (run ops r)).
Proof.
  intros Hcol H. pose proof (run_held ops r did Hcol H) as [Huse Hrows].
  split; [by split|].
  intros (x & Hx & Hfree)%elem_of_free_dids. rewrite Hx in Huse. simpl in Huse. congruence.
Qed.

Lemma returned_did_stays_in_use_witness :
  "15550001" ∉ free_dids
    (db (run [OpCleanup 400; OpIncoming 410 0 "c2" "333" "444"; OpCleanup 800] router_returned)).
Proof.
  refine (proj2 (returned_did_stays_in_use
                   [OpCleanup 400; OpIncoming 410 0 "c2" "333" "444"; OpCleanup 800]
                   router_returned "15550001" _ _)).
  - vm_compute. reflexivity.
  - split; [vm_compute; reflexivity|].
    intros x Hx _. vm_compute in Hx. apply list_elem_of_singleton in Hx. subst x. by left.
Defined.

(** C9, at the run where the code departs from it. The claim lets no run of
    the reaper free the DID of a call that has returned.  The statement
    under [// Release DIDs] in [cleanupStaleCalls] joins [dids] with every
    row of [call_records] that is FAILED with an end time in the last
    minute, not with the rows the run has just failed.  In [router_shared]
    the call A holds the DID that the failed call Z held; A returns at
    second 315, and the run of the reaper at second 340, which fails Y,
    frees the DID of A along with that of Y: the row of Z is FAILED since
    second 310 and carries the same DID.  The DID of the returned call is
    in the free pool again. *)
Theorem reaper_frees_returned_did :
  let r := (ProcessReturnCall 315 "6" "15550001" router_shared).1 in
  (ProcessReturnCall 315 "6" "15550001" router_shared).2
    = Ok (CallResponse.mk "success" EmptyString "trunk-s4" "5" "6") ∧
  (λ x, (call_records.call_id x, call_records.assigned_did x, call_records.status x))
    <$> tbl_call_records (db r)
    = [("Z", "15550001", CallStateFailed); ("Y", "15550002", CallStateForwarded);
       ("A", "15550001", CallStateReturned)] ∧
  dids.in_use <$> tbl_dids (db r) !! "15550001" = Some true ∧
  dids.in_use <$> tbl_dids (db (cleanupStaleCalls 340 r)) !! "15550001" = Some false ∧
  "15550001" ∈ free_dids (db (cleanupStaleCalls 340 r)).
Proof.
  split; [vm_compute; reflexivity|]. split; [vm_compute; reflexivity|].
  split; [vm_compute; reflexivity|]. split; [vm_compute; reflexivity|].
  apply elem_of_free_dids. eexists. split; vm_compute; reflexivity.
Qed.

(** * Further properties of the code *)

(** ** Lookup of a call by its DID *)

Lemma foldl_later_is_Some acc (rows : list call_records.row) :
  is_Some acc ∨ rows ≠ [] → is_Some (foldl later acc rows).
Proof.
  revert acc. induction rows as [|y rows IH]; intros acc; simpl.
  - by intros [?|?].
  - intros _. apply IH. left. unfold later. destruct acc as [z|]; [|eauto].
    destruct (_ <? _)%Z; eauto.
Qed.

Lemma foldl_later_max acc (rows : list call_records.row) x :
  foldl later acc rows = Some x →
  (∀ a, acc = Some a → (call_records.start_time a ≤ call_records.start_time x)%Z) ∧
  (∀ y, y ∈ rows → (call_records.start_time y ≤ call_records.start_time x)%Z).
Proof.
  revert acc. induction rows as [|z rows IH]; intros acc; simpl.
  - intros ->. split; [by intros a [= ->]|by intros y ?%elem_of_nil].
  - intros H. destruct (IH _ H) as [Hacc Hrows]. split.
    + intros a ->. simpl in Hacc.
      destruct (call_records.start_time a <? call_records.start_time z)%Z eqn:E.
      * apply Z.ltb_lt in E. specialize (Hacc z eq_refl). lia.
      * by apply Hacc.
    + intros y [Heq|Hy]%elem_of_cons; [subst y|by apply Hrows].
      destruct acc as [a|]; simpl in Hacc.
      * destruct (call_records.start_time a <? call_records.start_time z)%Z eqn:E.
        -- by apply Hacc.
        -- apply Z.ltb_ge in E. specialize (Hacc a eq_refl). lia.
      * by apply Hacc.
Qed.

Lemma elem_of_hits now did (rows : list call_records.row) x :
  x ∈ List.filter (fun x => bool_decide (call_records.assigned_did x = did) && restorable now x)
        rows
  ↔ x ∈ rows ∧ call_records.assigned_did x = did ∧ restorable now x = true.
Proof.
  rewrite !list_elem_of_In, filter_In, andb_true_iff, bool_decide_eq_true. tauto.
Qed.

Lemma getCallRecordByDID_found now did (d : DB) :
  match getCallRecordByDID now did d with
  | Ok record =>
      ∃ x, x ∈ tbl_call_records d ∧ call_records.assigned_did x = did ∧
           restorable now x = true ∧ record = record_of_row x ∧
           ∀ y, y ∈ tbl_call_records d → call_records.assigned_did y = did →
                restorable now y = true →
                (call_records.start_time y ≤ call_records.start_time x)%Z
  | Err e =>
      e = ErrNoRows ∧
      ∀ y, y ∈ tbl_call_records d → call_records.assigned_did y = did →
           restorable now y = false
  end.
Proof.
  unfold getCallRecordByDID.
  destruct (foldl later None _) as [x|] eqn:E.
  - destruct (foldl_later_max _ _ _ E) as [_ Hmax].
    apply foldl_later in E as [?|Hin]; [done|].
    apply elem_of_hits in Hin as (Hin & Hdid & Hres).
    exists x. repeat (split; [done|]).
    intros y Hy Hydid Hyres. apply Hmax. by apply elem_of_hits.
  - split; [done|]. intros y Hy Hdid. apply not_true_is_false. intros Hres.
    assert (is_Some (foldl later None
              (List.filter (fun x => bool_decide (call_records.assigned_did x = did)
                                     && restorable now x) (tbl_call_records d)))) as [z Hz].
    { apply foldl_later_is_Some. right. intros Hnil.
      assert (y ∈ List.filter (fun x => bool_decide (call_records.assigned_did x = did)
                                        && restorable now x) (tbl_call_records d)) as Hin
        by by apply elem_of_hits.
      rewrite Hnil in Hin. by apply elem_of_nil in Hin. }
    congruence.
Qed.

(** X1. [getCallRecordByDID] answers with the youngest ledger row that
    carries the DID, is ACTIVE, FORWARDED or RETURNED and started less than
    five minutes ago; it answers whenever there is such a row, and fails,
    with [sql.ErrNoRows], only when there is none. *)
Theorem getCallRecordByDID_latest now did (d : DB) :
  (∀ record, getCallRecordByDID now did d = Ok record →
     ∃ x, x ∈ tbl_call_records d ∧ call_records.assigned_did x = did ∧
          restorable now x = true ∧ record = record_of_row x ∧
          ∀ y, y ∈ tbl_call_records d → call_records.assigned_did y = did →
               restorable now y = true →
               (call_records.start_time y ≤ call_records.start_time x)%Z) ∧
  (∀ e, getCallRecordByDID now did d = Err e →
     e = ErrNoRows ∧
     ∀ y, y ∈ tbl_call_records d → call_records.assigned_did y = did →
          restorable now y = false) ∧
  (∀ y, y ∈ tbl_call_records d → call_records.assigned_did y = did →
        restorable now y = true →
        ∃ record, getCallRecordByDID now did d = Ok record).
Proof.
  pose proof (getCallRecordByDID_found now did d) as H.
  destruct (getCallRecordByDID now did d) as [record|e].
  - split; [|split].
    + by intros ? [= <-].
    + by intros e.
    + intros y _ _ _. by exists record.
  - destruct H as [-> Hnone]. split; [|split].
    + by intros record.
    + by intros e [= <-].
    + intros y Hy Hdid Hres. rewrite (Hnone y Hy Hdid) in Hres. done.
Qed.

Lemma getCallRecordByDID_latest_witness :
  getCallRecordByDID 200 "15550001" (db router_cold)
  = Ok (CallRecord.mk 0 "d1" "111" "222" "15550001" CallStateForwarded 100 None 0
          "/var/spool/asterisk/recordings/d1.wav") ∧
  getCallRecordByDID 401 "15550001" (db router_cold) = Err ErrNoRows.
Proof.
  destruct (getCallRecordByDID_latest 200 "15550001" (db router_cold)) as (_ & _ & Hlive).
  destruct (Hlive (call_records.mk "d1" "111" "222" "15550001" CallStateForwarded 100 None 0
                     "/var/spool/asterisk/recordings/d1.wav")) as [record Hrec].
  { vm_compute. apply list_elem_of_here. }
  { reflexivity. }
  { vm_compute. reflexivity. }
  split.
  - rewrite Hrec. vm_compute in Hrec. by injection Hrec as <-.
  - destruct (getCallRecordByDID 401 "15550001" (db router_cold)) as [record'|e] eqn:E.
    + vm_compute in E. discriminate.
    + by destruct (proj1 (proj2 (getCallRecordByDID_latest 401 "15550001" (db router_cold)))
                     e E) as [-> _].
Defined.

(** ** [ProcessReturnCall] on a DID the index does not know *)

(** X2. A return for a DID that neither the index nor a live ledger row
    knows fails with "no active call for DID", naming the DID as
    [cleanString] left it, and changes nothing, index or store. *)
Theorem return_unknown_did now ani2 did (r : Router) :
  didToCallMap r !! cleanString did = None →
  (∀ x, x ∈ tbl_call_records (db r) → call_records.assigned_did x = cleanString did →
        restorable now x = false) →
  ProcessReturnCall now ani2 did r = (r, Err (ErrNoActiveCall (cleanString did))).
Proof.
  intros Hd Hnone. unfold ProcessReturnCall. rewrite Hd.
  pose proof (getCallRecordByDID_found now (cleanString did) (db r)) as H.
  destruct (getCallRecordByDID now (cleanString did) (db r)) as [record|e]; [|done].
  destruct H as (x & Hin & Hdid & Hres & _). rewrite (Hnone x Hin Hdid) in Hres. done.
Qed.

Lemma return_unknown_did_witness :
  ProcessReturnCall 5 "222" " 15550002" router_forwarded
  = (router_forwarded, Err (ErrNoActiveCall "15550002")).
Proof.
  apply (return_unknown_did 5 "222" " 15550002" router_forwarded).
  - vm_compute. reflexivity.
  - intros x Hx. vm_compute in Hx. apply list_elem_of_singleton in Hx. subst x.
    vm_compute. discriminate.
Defined.

Lemma ProcessReturnCall_miss now ani2 did r record :
  didToCallMap r !! cleanString did = None →
  getCallRecordByDID now (cleanString did) (db r) = Ok record →
  ProcessReturnCall now ani2 did r =
    (mkRouter (updateCallStatus now (CallRecord.CallID record) CallStateReturned (db r))
              (<[CallRecord.CallID record := record]> (activeCallsMap r))
              (<[cleanString did := CallRecord.CallID record]> (didToCallMap r))
              (recordingPath r),
     Ok (CallResponse.mk "success" EmptyString "trunk-s4"
           (CallRecord.OriginalANI record) (CallRecord.OriginalDNIS record))).
Proof.
  intros Hd Hg. unfold ProcessReturnCall. rewrite Hd, Hg. simpl.
  by rewrite lookup_insert_eq.
Qed.

(** X3. A return for a DID the index does not know but a live ledger row
    carries succeeds with the numbers of the youngest such row and puts the
    row into both maps; from then on returns for the DID are answered from
    the index with the same numbers, whatever the time and whatever the
    reaper has done to the row meanwhile. *)
Theorem return_repairs_index now ani2 did (r : Router) (x : call_records.row) :
  didToCallMap r !! cleanString did = None →
  x ∈ tbl_call_records (db r) →
  call_records.assigned_did x = cleanString did →
  restorable now x = true →
  ∃ y, y ∈ tbl_call_records (db r) ∧ call_records.assigned_did y = cleanString did ∧
       restorable now y = true ∧
       (call_records.start_time x ≤ call_records.start_time y)%Z ∧
       (ProcessReturnCall now ani2 did r).2 =
         Ok (CallResponse.mk "success" EmptyString "trunk-s4"
               (call_records.original_ani y) (call_records.original_dnis y)) ∧
       didToCallMap (ProcessReturnCall now ani2 did r).1 !! cleanString did
         = Some (call_records.call_id y) ∧
       activeCallsMap (ProcessReturnCall now ani2 did r).1 !! call_records.call_id y
         = Some (record_of_row y) ∧
       ∀ ticks now' ani2', Forall is_tick ticks →
         let r1 := run ticks (ProcessReturnCall now ani2 did r).1 in
         (ProcessReturnCall now' ani2' did r1).2 =
           Ok (CallResponse.mk "success" EmptyString "trunk-s4"
                 (call_records.original_ani y) (call_records.original_dnis y)) ∧
         activeCallsMap (ProcessReturnCall now' ani2' did r1).1 = activeCallsMap r1 ∧
         didToCallMap (ProcessReturnCall now' ani2' did r1).1 = didToCallMap r1.
Proof.
  intros Hd Hin Hdid Hres.
  pose proof (getCallRecordByDID_found now (cleanString did) (db r)) as H.
  destruct (getCallRecordByDID now (cleanString did) (db r)) as [record|e] eqn:Hg.
  2:{ destruct H as [_ H]. rewrite (H x Hin Hdid) in Hres. done. }
  destruct H as (y & Hy & Hydid & Hyres & -> & Hmax).
  rewrite (ProcessReturnCall_miss _ ani2 _ _ _ Hd Hg). simpl.
  exists y. split; [done|]. split; [done|]. split; [done|].
  split; [by apply Hmax|]. split; [done|].
  split; [apply lookup_insert_eq|]. split; [apply lookup_insert_eq|].
  intros ticks now' ani2' Hticks.
  set (r0 := mkRouter _ _ _ _).
  destruct (run_ticks_maps ticks r0 Hticks) as [Ha Hdm].
  rewrite (ProcessReturnCall_hit now' ani2' did (run ticks r0)
             (call_records.call_id y) (record_of_row y)).
  - done.
  - rewrite Hdm. unfold r0. simpl. apply lookup_insert_eq.
  - rewrite Ha. unfold r0. simpl. apply lookup_insert_eq.
Qed.

Lemma return_repairs_index_witness :
  (ProcessReturnCall 200 "222" "15550001" router_cold).2
    = Ok (CallResponse.mk "success" EmptyString "trunk-s4" "111" "222") ∧
  (ProcessReturnCall 9000 "222" "15550001"
     (run [OpCleanup 500] (ProcessReturnCall 200 "222" "15550001" router_cold).1)).2
    = Ok (CallResponse.mk "success" EmptyString "trunk-s4" "111" "222").
Proof.
  destruct (return_repairs_index 200 "222" "15550001" router_cold
              (call_records.mk "d1" "111" "222" "15550001" CallStateForwarded 100 None 0
                 "/var/spool/asterisk/recordings/d1.wav"))
    as (y & Hy & _ & _ & _ & Hfirst & _ & _ & Hlater).
  - vm_compute. reflexivity.
  - vm_compute. apply list_elem_of_here.
  - vm_compute. reflexivity.
  - vm_compute. reflexivity.
  - vm_compute in Hy. apply list_elem_of_singleton in Hy. subst y.
    split; [exact Hfirst|].
    refine (proj1 (Hlater [OpCleanup 500] 9000%Z "222" _)).
    repeat constructor. by eexists.
Defined.

(** ** Status updates *)

Lemma updateCallStatus_lookup now callID st d i :
  tbl_call_records (updateCallStatus now callID st d) !! i
  = update_status_row now callID st <$> tbl_call_records d !! i.
Proof. simpl. apply list_lookup_fmap. Qed.

(** X4. [updateCallStatus] for a call id the ledger does not hold changes
    nothing in the store.  For one it holds, a terminal status (COMPLETED,
    FAILED) stamps the end time with the clock and the duration with the
    seconds since the start; any other status leaves end time and duration
    of every row as they were. *)
Theorem updateCallStatus_effect now callID st (d : DB) :
  (callID ∉ call_records.call_id <$> tbl_call_records d →
     updateCallStatus now callID st d = d) ∧
  (terminal st = true →
     ∀ x, x ∈ tbl_call_records (updateCallStatus now callID st d) →
          call_records.call_id x = callID →
          call_records.status x = st ∧ call_records.end_time x = Some now ∧
          call_records.duration x = (now - call_records.start_time x)%Z) ∧
  (terminal st = false →
     ∀ i x, tbl_call_records d !! i = Some x →
            ∃ y, tbl_call_records (updateCallStatus now callID st d) !! i = Some y ∧
                 call_records.end_time y = call_records.end_time x ∧
                 call_records.duration y = call_records.duration x).
Proof.
  split; [|split].
  - intros Hnot. destruct d as [ds rows col]. unfold updateCallStatus. simpl in *. f_equal.
    rewrite <- (list_fmap_id rows) at 2. apply list_fmap_ext.
    intros i x Hx. apply update_status_row_miss. intros Hid. apply Hnot.
    apply list_elem_of_fmap. exists x. split; [done|]. by eapply list_elem_of_lookup_2.
  - intros Hterm x (y & -> & Hy)%list_elem_of_fmap Hid.
    rewrite update_status_row_call_id in Hid. apply has_call_id_true in Hid.
    unfold update_status_row. rewrite Hid, Hterm. done.
  - intros Hterm i x Hi. rewrite updateCallStatus_lookup, Hi. simpl.
    eexists. split; [done|]. unfold update_status_row.
    destruct (has_call_id callID x); [|done]. by rewrite Hterm.
Qed.

Lemma updateCallStatus_effect_witness :
  updateCallStatus 50 "nobody" CallStateFailed (db router_forwarded) = db router_forwarded ∧
  (call_records.end_time <$>
     tbl_call_records (updateCallStatus 50 "c1" CallStateFailed (db router_forwarded)))
    = [Some 50%Z] ∧
  (call_records.end_time <$>
     tbl_call_records (updateCallStatus 50 "c1" CallStateReturned (db router_forwarded)))
    = [None].
Proof.
  split; [|split].
  - apply (proj1 (updateCallStatus_effect 50 "nobody" CallStateFailed (db router_forwarded))).
    assert (call_records.call_id <$> tbl_call_records (db router_forwarded) = ["c1"]) as ->
      by (vm_compute; reflexivity).
    intros Hin. apply list_elem_of_singleton in Hin. discriminate.
  - vm_compute. reflexivity.
  - vm_compute. reflexivity.
Defined.

(** ** Release of a DID *)

(** X5. [releaseDID] after [markDIDInUse] puts the DID back among the free
    ones: the same DIDs are free as before the marking and the ledger is
    untouched.  Releasing a DID the pool does not have changes nothing and
    is no error, and releasing twice at the same time is as releasing
    once. *)
Theorem releaseDID_round_trip now now' did dest (d : DB) :
  (∀ d1, markDIDInUse now did dest d = Ok d1 →
         dids.in_use <$> tbl_dids d !! did = Some false →
         ∃ d2, releaseDID now' did d1 = Ok d2 ∧
               (∀ k, k ∈ free_dids d2 ↔ k ∈ free_dids d) ∧
               tbl_dids d2 !! did
                 = (fun x => dids.mk false None (dids.country x) now') <$> tbl_dids d !! did ∧
               tbl_call_records d2 = tbl_call_records d) ∧
  (tbl_dids d !! did = None → releaseDID now did d = Ok d) ∧
  (∀ d1, releaseDID now did d = Ok d1 → releaseDID now did d1 = Ok d1).
Proof.
  split; [|split].
  - intros d1 (x & Hx & ->)%markDIDInUse_Ok Hfree. rewrite Hx in Hfree. simpl in Hfree.
    eexists. split; [reflexivity|]. simpl. split; [|split; [|done]].
    + intros k. rewrite !elem_of_free_dids. simpl.
      destruct (decide (k = did)) as [->|Hne].
      * rewrite lookup_alter_eq, lookup_insert_eq, Hx. simpl. split; [|eauto].
        intros _. exists x. split; [done|]. congruence.
      * by rewrite lookup_alter_ne, lookup_insert_ne.
    + by rewrite lookup_alter_eq, lookup_insert_eq, Hx.
  - intros Hnone. unfold releaseDID. destruct d as [ds rows col]. simpl in *.
    do 2 f_equal. apply map_eq. intros k. destruct (decide (k = did)) as [->|Hne].
    + by rewrite lookup_alter_eq, Hnone.
    + by rewrite lookup_alter_ne.
  - intros d1 [= <-]. unfold releaseDID. simpl. do 2 f_equal.
    apply map_eq. intros k. destruct (decide (k = did)) as [->|Hne].
    + rewrite !lookup_alter_eq. by destruct (tbl_dids d !! did).
    + by rewrite !lookup_alter_ne.
Qed.

Lemma releaseDID_round_trip_witness :
  ∃ d1 d2, markDIDInUse 7 "15550001" "222" (db (router0 true)) = Ok d1 ∧
           releaseDID 9 "15550001" d1 = Ok d2 ∧
           ∀ k, k ∈ free_dids d2 ↔ k ∈ free_dids (db (router0 true)).
Proof.
  destruct (markDIDInUse 7 "15550001" "222" (db (router0 true))) as [d1|e] eqn:E;
    [|vm_compute in E; discriminate].
  destruct (proj1 (releaseDID_round_trip 7 9 "15550001" "222" (db (router0 true))) d1 E)
    as (d2 & Hrel & Hfree & _).
  { vm_compute. reflexivity. }
  exists d1, d2. split; [reflexivity|]. split; [exact Hrel|exact Hfree].
Defined.

(** ** What a run does to the ledger *)

Lemma keeps_refl x : keeps x x.
Proof. by repeat split. Qed.

Lemma keeps_trans x y z : keeps x y → keeps y z → keeps x z.
Proof.
  intros [(H1 & H2 & H3 & H4 & H5) Hc] [(G1 & G2 & G3 & G4 & G5) Gc]. split.
  - repeat split; congruence.
  - intros Hz. specialize (Gc Hz). subst z. by apply Hc.
Qed.

Lemma keeps_update_status now callID st x :
  st ≠ CallStateCompleted → keeps x (update_status_row now callID st x).
Proof.
  intros Hst. unfold update_status_row. destruct (has_call_id callID x); [|apply keeps_refl].
  split; [by repeat split|]. simpl. done.
Qed.

Lemma keeps_expire now x : keeps x (expire now x).
Proof.
  unfold expire. destruct (stale now x); [|apply keeps_refl].
  split; [by repeat split|]. simpl. done.
Qed.

(** The upsert as a rewrite of the rows that are there and, for a new key,
    one row more. *)
Lemma upsert_shape record rows :
  upsert record rows =
    (((fun x => if has_call_id (CallRecord.CallID record) x
                then call_records.set_assigned_did (CallRecord.AssignedDID record)
                       (call_records.set_status (CallRecord.Status record) x)
                else x) <$> rows)
     ++ (if existsb (has_call_id (CallRecord.CallID record)) rows
         then [] else [row_of_record record]))%list.
Proof.
  unfold upsert. destruct (existsb _ rows) eqn:E; [by rewrite app_nil_r|].
  f_equal. rewrite <- (list_fmap_id rows) at 1. apply list_fmap_ext. intros i x Hx. simpl.
  destruct (has_call_id _ x) eqn:Ex; [|done].
  assert (existsb (has_call_id (CallRecord.CallID record)) rows = true); [|congruence].
  apply existsb_exists. exists x. split; [|done].
  apply list_elem_of_In. by eapply list_elem_of_lookup_2.
Qed.

(** Each step rewrites the rows that are there, keeping them apart from
    status, DID, end time and duration, and adds at most rows that are not
    COMPLETED. *)
Lemma step_shape r o :
  ∃ f added,
    tbl_call_records (db (step r o)) = ((f <$> tbl_call_records (db r)) ++ added)%list ∧
    (∀ x, keeps x (f x)) ∧
    Forall (fun a => call_records.status a ≠ CallStateCompleted) added.
Proof.
  destruct o as [now rnd callID ani dnis|now ani2 did|now|now]; simpl.
  - destruct (ProcessIncomingCall now rnd callID ani dnis r).2 as [resp|e] eqn:E.
    + destruct (ProcessIncomingCall_ledger _ _ _ _ _ _ _ E) as [-> _].
      destruct (call_records_updated_at (db r)).
      * rewrite upsert_shape, fmap_app, <- list_fmap_compose.
        eexists _, _. split; [reflexivity|]. split.
        -- intros x. simpl. eapply keeps_trans; [|by apply keeps_update_status].
           destruct (has_call_id _ x); [|apply keeps_refl]. split; [by repeat split|done].
        -- destruct (existsb _ _); [constructor|]. simpl. constructor; [|constructor].
           rewrite update_status_row_hit; done.
      * exists (update_status_row now callID CallStateForwarded), [].
        rewrite app_nil_r. split; [done|]. split; [|constructor].
        intros x. by apply keeps_update_status.
    + rewrite (ProcessIncomingCall_Err _ _ _ _ _ _ _ E).
      exists id, []. rewrite app_nil_r, list_fmap_id. split; [done|].
      split; [apply keeps_refl|constructor].
  - destruct (ProcessReturnCall_db now ani2 did r) as [->|[callID ->]].
    + exists id, []. rewrite app_nil_r, list_fmap_id. split; [done|].
      split; [apply keeps_refl|constructor].
    + exists (update_status_row now callID CallStateReturned), [].
      rewrite app_nil_r. split; [done|]. split; [|constructor].
      intros x. by apply keeps_update_status.
  - unfold restoreActiveCalls.
    destruct (remember_rows_db r (List.filter (restorable now) (tbl_call_records (db r))))
      as [-> _].
    exists id, []. rewrite app_nil_r, list_fmap_id. split; [done|].
    split; [apply keeps_refl|constructor].
  - rewrite cleanupStaleCalls_rows. exists (expire now), [].
    rewrite app_nil_r. split; [done|]. split; [apply keeps_expire|constructor].
Qed.

Lemma run_snoc ops o r : run (ops ++ [o]) r = step (run ops r) o.
Proof. unfold run. by rewrite foldl_app. Qed.

Lemma run_shape ops r :
  ∃ f added,
    tbl_call_records (db (run ops r)) = ((f <$> tbl_call_records (db r)) ++ added)%list ∧
    (∀ x, keeps x (f x)) ∧
    Forall (fun a => call_records.status a ≠ CallStateCompleted) added.
Proof.
  induction ops as [|o ops (f & added & Heq & Hf & Hadded)] using rev_ind.
  - exists id, []. rewrite app_nil_r, list_fmap_id. split; [done|].
    split; [apply keeps_refl|constructor].
  - rewrite run_snoc.
    destruct (step_shape (run ops r) o) as (g & added' & -> & Hg & Hadded').
    rewrite Heq, fmap_app, <- list_fmap_compose, <- app_assoc.
    eexists _, _. split; [reflexivity|]. split.
    + intros x. simpl. eapply keeps_trans; [apply Hf|apply Hg].
    + apply Forall_app. split; [|done]. apply Forall_fmap.
      eapply Forall_impl; [exact Hadded|]. simpl. intros a Ha Hc.
      destruct (Hg a) as [_ Hk]. rewrite (Hk Hc) in Hc. done.
Qed.

Lemma step_NoDup r o :
  NoDup (call_records.call_id <$> tbl_call_records (db r)) →
  NoDup (call_records.call_id <$> tbl_call_records (db (step r o))).
Proof.
  intros Hnd. destruct o as [now rnd callID ani dnis|now ani2 did|now|now]; simpl.
  - destruct (ProcessIncomingCall now rnd callID ani dnis r).2 as [resp|e] eqn:E.
    + destruct (ProcessIncomingCall_ledger _ _ _ _ _ _ _ E) as [-> _].
      rewrite <- list_fmap_compose.
      rewrite (list_fmap_ext _ call_records.call_id)
        by (intros ? x _; apply update_status_row_call_id).
      destruct (call_records_updated_at (db r)); [by apply upsert_NoDup|done].
    + by rewrite (ProcessIncomingCall_Err _ _ _ _ _ _ _ E).
  - destruct (ProcessReturnCall_db now ani2 did r) as [->|[callID ->]]; [done|].
    by rewrite updateCallStatus_call_ids.
  - unfold restoreActiveCalls.
    by destruct (remember_rows_db r (List.filter (restorable now) (tbl_call_records (db r))))
      as [-> _].
  - rewrite cleanupStaleCalls_rows, <- list_fmap_compose.
    rewrite (list_fmap_ext _ call_records.call_id); [done|].
    intros ? x _. simpl. unfold expire. by destruct (stale now x).
Qed.

(** X6. No run of the engine deletes a ledger row or rewrites its call id,
    original ANI, original DNIS, start time or recording path: the row at
    each position stays the row of the same call.  Call ids that are unique
    stay unique. *)
Theorem ledger_rows_persist (ops : list op) (r : Router) :
  (∀ i x, tbl_call_records (db r) !! i = Some x →
          ∃ y, tbl_call_records (db (run ops r)) !! i = Some y ∧ same_call x y) ∧
  (NoDup (call_records.call_id <$> tbl_call_records (db r)) →
   NoDup (call_records.call_id <$> tbl_call_records (db (run ops r)))).
Proof.
  split.
  - intros i x Hi. destruct (run_shape ops r) as (f & added & -> & Hf & _).
    exists (f x). split; [|apply Hf].
    rewrite lookup_app_l by (rewrite length_fmap; by eapply lookup_lt_Some).
    by rewrite list_lookup_fmap, Hi.
  - revert r. induction ops as [|o ops IH]; intros r Hnd; [done|].
    apply IH. by apply step_NoDup.
Qed.

Lemma ledger_rows_persist_witness :
  ∃ y, tbl_call_records (db (run [OpIncoming 3 0 "c1" "333" "444"; OpCleanup 900;
                                  OpReturn 950 "x" "15550002"] router_forwarded)) !! 0%nat
         = Some y ∧
       same_call (call_records.mk "c1" "111" "222" "15550001" CallStateForwarded 0 None 0
                    "/var/spool/asterisk/recordings/c1.wav") y.
Proof.
  apply (proj1 (ledger_rows_persist [OpIncoming 3 0 "c1" "333" "444"; OpCleanup 900;
                                     OpReturn 950 "x" "15550002"] router_forwarded)).
  vm_compute. reflexivity.
Defined.

(** X7. The engine never completes a call: a ledger row that reads COMPLETED
    after a run was there before the run, at the same position and the same
    in every column. *)
Theorem engine_never_completes (ops : list op) (r : Router) i y :
  tbl_call_records (db (run ops r)) !! i = Some y →
  call_records.status y = CallStateCompleted →
  tbl_call_records (db r) !! i = Some y.
Proof.
  destruct (run_shape ops r) as (f & added & -> & Hf & Hadded).
  intros Hi Hc. apply lookup_app_Some in Hi as [Hi|[_ Hi]].
  - rewrite list_lookup_fmap in Hi.
    destruct (tbl_call_records (db r) !! i) as [x|]; [|done].
    simpl in Hi. injection Hi as <-. destruct (Hf x) as [_ Hk]. by rewrite (Hk Hc).
  - exfalso. apply list_elem_of_lookup_2 in Hi.
    rewrite Forall_forall in Hadded. by apply (Hadded y).
Qed.

Lemma engine_never_completes_witness :
  tbl_call_records (db router_done) !! 0%nat
  = Some (call_records.mk "e1" "777" "888" "15550001" CallStateCompleted 10 (Some 60%Z) 50
            "/var/spool/asterisk/recordings/e1.wav").
Proof.
  apply (engine_never_completes
           [OpIncoming 100 0 "c1" "111" "222"; OpReturn 120 "222" "15550001"; OpCleanup 900]
           router_done 0).
  - vm_compute. reflexivity.
  - reflexivity.
Defined.

(** ** What a run does to the pool *)

Lemma step_dids_lookup r o did :
  (tbl_dids (db (step r o)) !! did = None ↔ tbl_dids (db r) !! did = None) ∧
  (∀ x y, tbl_dids (db r) !! did = Some x → tbl_dids (db (step r o)) !! did = Some y →
          dids.country y = dids.country x).
Proof.
  destruct o as [now rnd callID ani dnis|now ani2 d|now|now]; simpl.
  - destruct (ProcessIncomingCall now rnd callID ani dnis r).2 as [resp|e] eqn:E;
      [|by rewrite (ProcessIncomingCall_Err _ _ _ _ _ _ _ E); split; [|congruence]].
    destruct (ProcessIncomingCall_dids _ _ _ _ _ _ _ E) as (x0 & Hx0 & _ & ->).
    destruct (decide (CallResponse.DIDAssigned resp = did)) as [<-|Hne].
    + rewrite lookup_insert_eq, Hx0. split; [done|]. by intros x y [= <-] [= <-].
    + rewrite lookup_insert_ne by done. split; [done|congruence].
  - destruct (ProcessReturnCall_db now ani2 d r) as [->|[callID ->]];
      (split; [done|simpl; congruence]).
  - unfold restoreActiveCalls.
    destruct (remember_rows_db r (List.filter (restorable now) (tbl_call_records (db r))))
      as [-> _].
    split; [done|congruence].
  - rewrite cleanupStaleCalls_dids_lookup.
    destruct (_ && _); [|split; [done|congruence]].
    destruct (tbl_dids (db r) !! did) as [x|]; simpl; [|done].
    split; [done|]. by intros ? ? [= <-] [= <-].
Qed.

(** X8. The engine neither adds nor drops a row of [dids], and never writes
    its country: after any run the pool has the same DIDs, each with the
    country it had. *)
Theorem pool_rows_persist (ops : list op) (r : Router) :
  dom (tbl_dids (db (run ops r))) = dom (tbl_dids (db r)) ∧
  ∀ did x, tbl_dids (db r) !! did = Some x →
           ∃ y, tbl_dids (db (run ops r)) !! did = Some y ∧ dids.country y = dids.country x.
Proof.
  revert r. induction ops as [|o ops IH]; intros r.
  - split; [done|]. intros did x Hx. by exists x.
  - change (run (o :: ops) r) with (run ops (step r o)).
    destruct (IH (step r o)) as [Hdom Hrows]. split.
    + rewrite Hdom. apply set_eq. intros did. rewrite !elem_of_dom, <- !not_eq_None_Some.
      by destruct (step_dids_lookup r o did) as [-> _].
    + intros did x Hx.
      destruct (tbl_dids (db (step r o)) !! did) as [y|] eqn:Hy.
      * destruct (Hrows did y Hy) as (z & Hz & Hzc). exists z. split; [done|].
        rewrite Hzc. by apply (proj2 (step_dids_lookup r o did)).
      * apply (proj1 (step_dids_lookup r o did)) in Hy. congruence.
Qed.

Lemma step_request_in_use r o did :
  is_request o →
  dids.in_use <$> tbl_dids (db r) !! did = Some true →
  dids.in_use <$> tbl_dids (db (step r o)) !! did = Some true.
Proof.
  intros Hreq Huse. destruct o as [now rnd callID ani dnis|now ani2 d|now|now]; simpl;
    [| | |done].
  - destruct (ProcessIncomingCall now rnd callID ani dnis r).2 as [resp|e] eqn:E;
      [|by rewrite (ProcessIncomingCall_Err _ _ _ _ _ _ _ E)].
    destruct (ProcessIncomingCall_dids _ _ _ _ _ _ _ E) as (x0 & Hx0 & _ & ->).
    destruct (decide (CallResponse.DIDAssigned resp = did)) as [<-|Hne].
    + by rewrite lookup_insert_eq.
    + by rewrite lookup_insert_ne.
  - by destruct (ProcessReturnCall_db now ani2 d r) as [->|[callID ->]].
  - unfold restoreActiveCalls.
    by destruct (remember_rows_db r (List.filter (restorable now) (tbl_call_records (db r))))
      as [-> _].
Qed.

(** X9. Only the reaper frees a DID.  Through any sequence of
    [ProcessIncomingCall], [ProcessReturnCall] and rebuilds, successful or
    not, a DID that is in use stays in use: a return does not give the DID
    of its call back. *)
Theorem requests_never_free (ops : list op) (r : Router) (did : string) :
  Forall is_request ops →
  dids.in_use <$> tbl_dids (db r) !! did = Some true →
  dids.in_use <$> tbl_dids (db (run ops r)) !! did = Some true.
Proof.
  intros Hops. revert r. induction Hops as [|o ops Ho _ IH]; intros r Huse; [done|].
  apply IH. by apply step_request_in_use.
Qed.

Lemma requests_never_free_witness :
  dids.in_use <$>
    tbl_dids (db (run [OpReturn 5 "222" "15550001"; OpReturn 9 "222" "15550001";
                       OpIncoming 20 0 "c2" "333" "444"; OpRestore 30] router_forwarded))
      !! "15550001" = Some true.
Proof.
  apply requests_never_free.
  - repeat constructor.
  - vm_compute. reflexivity.
Defined.

(** X10. On the tables [createTables] lays out, empty and without the
    column the upsert names, the ledger stays empty through any run, the
    reaper finds nothing to expire, and a DID once in use is never free
    again: every call that is answered uses up a DID for good. *)
Theorem created_tables_never_release (ops : list op) (r : Router) (did : string) :
  call_records_updated_at (db r) = false →
  tbl_call_records (db r) = [] →
  tbl_call_records (db (run ops r)) = [] ∧
  (dids.in_use <$> tbl_dids (db r) !! did = Some true →
   dids.in_use <$> tbl_dids (db (run ops r)) !! did = Some true).
Proof.
  revert r. induction ops as [|o ops IH]; intros r Hcol Hrows; [done|].
  change (run (o :: ops) r) with (run ops (step r o)).
  assert (tbl_call_records (db (step r o)) = [] ∧
          (dids.in_use <$> tbl_dids (db r) !! did = Some true →
           dids.in_use <$> tbl_dids (db (step r o)) !! did = Some true)) as [Hrows' Huse'].
  { destruct o as [now rnd callID ani dnis|now ani2 d|now|now];
      try (split; [|by apply step_request_in_use]); simpl.
    - destruct (ProcessIncomingCall now rnd callID ani dnis r).2 as [resp|e] eqn:E;
        [|by rewrite (ProcessIncomingCall_Err _ _ _ _ _ _ _ E)].
      destruct (ProcessIncomingCall_ledger _ _ _ _ _ _ _ E) as [-> _].
      by rewrite Hcol, Hrows.
    - destruct (ProcessReturnCall_db now ani2 d r) as [->|[callID ->]]; [done|].
      simpl. by rewrite Hrows.
    - unfold restoreActiveCalls.
      by destruct (remember_rows_db r (List.filter (restorable now) (tbl_call_records (db r))))
        as [-> _].
    - split.
      + by rewrite cleanupStaleCalls_rows, Hrows.
      + rewrite cleanupStaleCalls_dids_lookup, Hrows. done. }
  destruct (IH (step r o)) as [Hfinal Huse]; [by rewrite step_column|done|].
  split; [done|]. intros H. by apply Huse, Huse'.
Qed.

Lemma created_tables_never_release_witness :
  tbl_call_records
    (db (run [OpIncoming 0 0 "c1" "111" "222"; OpReturn 5 "222" "15550001"; OpCleanup 900;
              OpCleanup 930] router_created)) = [] ∧
  dids.in_use <$>
    tbl_dids (db (run [OpCleanup 900; OpCleanup 930]
                      (run [OpIncoming 0 0 "c1" "111" "222"; OpReturn 5 "222" "15550001"]
                           router_created))) !! "15550001" = Some true.
Proof.
  split.
  - apply (created_tables_never_release _ router_created "15550001"); reflexivity.
  - apply (created_tables_never_release [OpCleanup 900; OpCleanup 930]
             (run [OpIncoming 0 0 "c1" "111" "222"; OpReturn 5 "222" "15550001"]
                  router_created) "15550001").
    + vm_compute. reflexivity.
    + vm_compute. reflexivity.
    + vm_compute. reflexivity.
Defined.

(** ** The reaper when nothing is stale *)

Lemma expire_not_stale now x : stale now (expire now x) = false.
Proof.
  unfold expire. destruct (stale now x) eqn:E; [|done]. unfold stale. done.
Qed.

(** X11. A run of the reaper that finds no ACTIVE or FORWARDED row older
    than five minutes changes nothing at all: DIDs that failed rows still
    hold are not looked at.  So a second run at the same time as the first
    adds nothing to it. *)
Theorem reaper_quiet now (r : Router) :
  ((∀ x, x ∈ tbl_call_records (db r) → stale now x = false) →
   cleanupStaleCalls now r = r) ∧
  cleanupStaleCalls now (cleanupStaleCalls now r) = cleanupStaleCalls now r.
Proof.
  assert (∀ r0, (∀ x, x ∈ tbl_call_records (db r0) → stale now x = false) →
                cleanupStaleCalls now r0 = r0) as Hquiet.
  { intros r0 Hnone. unfold cleanupStaleCalls.
    assert (List.filter (stale now) (tbl_call_records (db r0)) = []) as ->.
    { destruct (List.filter (stale now) (tbl_call_records (db r0))) as [|x l] eqn:E; [done|].
      assert (x ∈ List.filter (stale now) (tbl_call_records (db r0))) as Hx
        by (rewrite E; apply list_elem_of_here).
      apply list_elem_of_In, filter_In in Hx as [Hx%list_elem_of_In Hst].
      rewrite (Hnone x Hx) in Hst. done. }
    simpl. destruct r0 as [[ds rows col] acm dcm path]. simpl in *. do 2 f_equal.
    rewrite <- (list_fmap_id rows) at 2. apply list_fmap_ext. intros i x Hx.
    unfold expire. rewrite Hnone; [done|]. by eapply list_elem_of_lookup_2. }
  split; [apply Hquiet|]. apply Hquiet. intros x.
  rewrite cleanupStaleCalls_rows. intros (y & -> & _)%list_elem_of_fmap.
  apply expire_not_stale.
Qed.

Lemma reaper_quiet_witness :
  cleanupStaleCalls 200 router_forwarded = router_forwarded.
Proof.
  apply (proj1 (reaper_quiet 200 router_forwarded)).
  intros x Hx. vm_compute in Hx. apply list_elem_of_singleton in Hx. subst x.
  vm_compute. reflexivity.
Defined.

(** ** When an incoming call is answered *)

Lemma incoming_Ok_free now rnd callID ani dnis (r : Router) resp :
  (ProcessIncomingCall now rnd callID ani dnis r).2 = Ok resp → free_dids (db r) ≠ [].
Proof.
  intros (did & Hin & _)%ProcessIncomingCall_Ok Hnil. rewrite Hnil in Hin.
  by apply elem_of_nil in Hin.
Qed.

Lemma incoming_Err_inv now rnd callID ani dnis (r : Router) e :
  (ProcessIncomingCall now rnd callID ani dnis r).2 = Err e →
  e = ErrNoAvailableDIDs ErrNoRows ∧ free_dids (db r) = [].
Proof.
  unfold ProcessIncomingCall.
  destruct (getAvailableDID rnd (db r)) as [did|e0] eqn:E.
  - apply getAvailableDID_Ok in E. by destruct (markDIDInUse_free now did dnis _ E) as [d1 ->].
  - apply getAvailableDID_Err in E as [Hnil ->]. simpl. by intros [= <-].
Qed.

(** X12. [ProcessIncomingCall] is answered with a DID exactly when the pool
    has a free one; "no available DIDs" is the only error it returns, the
    "DID not found" of [markDIDInUse] never shows. *)
Theorem incoming_succeeds_iff_free now rnd callID ani dnis (r : Router) :
  ((∃ resp, (ProcessIncomingCall now rnd callID ani dnis r).2 = Ok resp)
   ↔ free_dids (db r) ≠ []) ∧
  (∀ e, (ProcessIncomingCall now rnd callID ani dnis r).2 = Err e →
        e = ErrNoAvailableDIDs ErrNoRows ∧ free_dids (db r) = []).
Proof.
  unfold ProcessIncomingCall.
  destruct (getAvailableDID rnd (db r)) as [did|e0] eqn:E.
  - apply getAvailableDID_Ok in E.
    destruct (markDIDInUse_free now did dnis _ E) as [d1 ->]. simpl. split; [|done].
    split; [|eauto]. intros _ Hnil. rewrite Hnil in E. by apply elem_of_nil in E.
  - apply getAvailableDID_Err in E as [Hnil ->]. simpl. split.
    + split; [by intros [? ?]|done].
    + by intros e [= <-].
Qed.

Lemma incoming_succeeds_iff_free_witness :
  ∃ resp, (ProcessIncomingCall 0 5 "c1" "111" "222" (router0 true)).2 = Ok resp.
Proof.
  apply (proj1 (incoming_succeeds_iff_free 0 5 "c1" "111" "222" (router0 true))).
  vm_compute. discriminate.
Defined.

Lemma ProcessIncomingCall_free_length now rnd callID ani dnis r resp :
  (ProcessIncomingCall now rnd callID ani dnis r).2 = Ok resp →
  length (free_dids (db r))
  = S (length (free_dids (db (ProcessIncomingCall now rnd callID ani dnis r).1))).
Proof.
  intros Hok. destruct (ProcessIncomingCall_free _ _ _ _ _ _ _ Hok) as [Hfree Hiff].
  change (S (length ?l)) with (length (CallResponse.DIDAssigned resp :: l)).
  apply Permutation_length, NoDup_Permutation.
  - apply NoDup_free_dids.
  - constructor; [|apply NoDup_free_dids]. intros Hin. by apply Hiff in Hin as [_ ?].
  - intros did. rewrite elem_of_cons, Hiff. split.
    + intros Hin. destruct (decide (did = CallResponse.DIDAssigned resp)); [by left|by right].
    + by intros [->|[? _]].
Qed.

(** X13. Of the calls of a schedule the first [N] are answered, [N] the
    number of free DIDs at the start, and all later ones fail: the number
    of answered calls is the smaller of the two lengths. *)
Theorem serve_count (schedule : list incoming) (r : Router) :
  length (assigned (serve schedule r).2)
  = Nat.min (length schedule) (length (free_dids (db r))).
Proof.
  revert r. induction schedule as [|q rest IH]; intros r; [done|]. simpl.
  destruct (ProcessIncomingCall (in_now q) (in_rnd q) (in_callID q) (in_ani q) (in_dnis q) r)
    as [r1 res] eqn:E.
  specialize (IH r1). destruct (serve rest r1) as [r2 out] eqn:Es. simpl in *.
  assert (Hres : (ProcessIncomingCall (in_now q) (in_rnd q) (in_callID q) (in_ani q)
                    (in_dnis q) r).2 = res) by by rewrite E.
  assert (Hr1 : (ProcessIncomingCall (in_now q) (in_rnd q) (in_callID q) (in_ani q)
                    (in_dnis q) r).1 = r1) by by rewrite E.
  destruct res as [resp|e]; simpl.
  - rewrite (ProcessIncomingCall_free_length _ _ _ _ _ _ _ Hres), Hr1, IH. done.
  - destruct (incoming_Err_inv _ _ _ _ _ _ _ Hres) as [_ Hnil].
    apply ProcessIncomingCall_Err in Hres. rewrite Hr1 in Hres. subst r1.
    rewrite IH, Hnil. simpl. lia.
Qed.

(** ** What the rebuild loads *)

Lemma remember_rows_own r rows x :
  NoDup (call_records.call_id <$> rows) → x ∈ rows →
  activeCallsMap (remember_rows r rows) !! call_records.call_id x = Some (record_of_row x).
Proof.
  induction rows as [|y rows IH] using rev_ind; [by intros _ ?%elem_of_nil|].
  rewrite fmap_app. intros (Hnd & Hfresh & _)%NoDup_app.
  rewrite remember_rows_snoc. simpl.
  intros [Hin|Heq%list_elem_of_singleton]%elem_of_app.
  - rewrite lookup_insert_ne; [by apply IH|].
    intros Heq. apply (Hfresh (call_records.call_id x)).
    + apply list_elem_of_fmap. eauto.
    + rewrite <- Heq. simpl. apply list_elem_of_here.
  - subst y. apply lookup_insert_eq.
Qed.

Lemma NoDup_filter_call_ids (f : call_records.row → bool) rows :
  NoDup (call_records.call_id <$> rows) →
  NoDup (call_records.call_id <$> List.filter f rows).
Proof.
  induction rows as [|x rows IH]; simpl; [done|].
  intros [Hx Hnd]%NoDup_cons. destruct (f x); simpl; [|by apply IH].
  constructor; [|by apply IH].
  intros (y & Hid & Hy)%list_elem_of_fmap. apply Hx.
  apply list_elem_of_fmap. exists y. split; [done|].
  apply list_elem_of_In, filter_In in Hy as [Hy _]. by apply list_elem_of_In.
Qed.

(** X14. [NewRouter] on an existing database loads the live rows and
    nothing else.  With unique call ids, the call map holds a record under
    a call id exactly when the ledger row of that id is ACTIVE, FORWARDED or
    RETURNED and younger than five minutes, and the record is the scan of
    that row; the DID map has an entry for a DID exactly when such a row
    carries it.  FAILED, COMPLETED and older rows are not loaded. *)
Theorem rebuild_exact now (d : DB) :
  NoDup (call_records.call_id <$> tbl_call_records d) →
  (∀ callID record,
     activeCallsMap (NewRouter now (Some d)) !! callID = Some record ↔
     ∃ x, x ∈ tbl_call_records d ∧ restorable now x = true ∧
          call_records.call_id x = callID ∧ record = record_of_row x) ∧
  (∀ did,
     is_Some (didToCallMap (NewRouter now (Some d)) !! did) ↔
     ∃ x, x ∈ tbl_call_records d ∧ restorable now x = true ∧
          call_records.assigned_did x = did) ∧
  db (NewRouter now (Some d)) = d.
Proof.
  intros Hnd. unfold NewRouter, restoreActiveCalls. simpl.
  set (rows := List.filter (restorable now) (tbl_call_records d)).
  set (r0 := mkRouter d ∅ ∅ "/var/spool/asterisk/recordings").
  split; [|split].
  - intros callID record. split.
    + intros H. apply remember_rows_call in H as [H|(x & Hx & Hid & ->)].
      * unfold r0 in H. simpl in H. by rewrite lookup_empty in H.
      * apply elem_of_filter_restorable in Hx as [Hx Hres]. by exists x.
    + intros (x & Hx & Hres & <- & ->).
      apply remember_rows_own; [by apply NoDup_filter_call_ids|].
      by apply elem_of_filter_restorable.
  - intros did. split.
    + intros [c H]. apply remember_rows_did in H as [H|(x & Hx & Hdid & _)].
      * unfold r0 in H. simpl in H. by rewrite lookup_empty in H.
      * apply elem_of_filter_restorable in Hx as [Hx Hres]. by exists x.
    + intros (x & Hx & Hres & <-).
      apply (remember_rows_bound r0 rows x). by apply elem_of_filter_restorable.
  - apply (proj1 (remember_rows_db r0 rows)).
Qed.

Lemma rebuild_exact_witness :
  (∀ callID record,
     activeCallsMap (NewRouter 1000 (Some (db router_forwarded))) !! callID = Some record ↔
     ∃ x, x ∈ tbl_call_records (db router_forwarded) ∧ restorable 1000 x = true ∧
          call_records.call_id x = callID ∧ record = record_of_row x) ∧
  activeCallsMap (NewRouter 200 (Some (db router_forwarded))) !! "c1"
    = Some (CallRecord.mk 0 "c1" "111" "222" "15550001" CallStateForwarded 0 None 0
              "/var/spool/asterisk/recordings/c1.wav").
Proof.
  assert (NoDup (call_records.call_id <$> tbl_call_records (db router_forwarded))) as Hnd.
  { vm_compute. repeat constructor. by intros ?%elem_of_nil. }
  split.
  - apply (rebuild_exact 1000 (db router_forwarded) Hnd).
  - apply (proj1 (rebuild_exact 200 (db router_forwarded) Hnd)).
    eexists. split; [vm_compute; apply list_elem_of_here|].
    split; [vm_compute; reflexivity|]. split; reflexivity.
Defined.

(** ** A return after the reaper *)

(** X15. A return that comes after the reaper has failed the call is still
    answered from the index, with the numbers of the call.  It turns the
    FAILED row back to RETURNED, leaves the end time of the failure in
    place, and does not take the DID back: the DID the reaper freed stays
    free while its call reads RETURNED. *)
Theorem late_return_revives now1 now2 ani2 did (r : Router) callID record i x :
  didToCallMap r !! cleanString did = Some callID →
  activeCallsMap r !! callID = Some record →
  tbl_call_records (db r) !! i = Some x →
  call_records.call_id x = callID →
  stale now1 x = true →
  let r1 := cleanupStaleCalls now1 r in
  (ProcessReturnCall now2 ani2 did r1).2 =
    Ok (CallResponse.mk "success" EmptyString "trunk-s4"
          (CallRecord.OriginalANI record) (CallRecord.OriginalDNIS record)) ∧
  tbl_call_records (db r1) !! i =
    Some (call_records.set_end_time (Some now1) (call_records.set_status CallStateFailed x)) ∧
  tbl_call_records (db (ProcessReturnCall now2 ani2 did r1).1) !! i =
    Some (call_records.set_end_time (Some now1) (call_records.set_status CallStateReturned x)) ∧
  (is_Some (tbl_dids (db r) !! call_records.assigned_did x) →
   call_records.assigned_did x ∈ free_dids (db (ProcessReturnCall now2 ani2 did r1).1)).
Proof.
  intros Hd Ha Hi Hid Hst. simpl.
  destruct (cleanupStaleCalls_maps now1 r) as [Hacm Hdcm].
  rewrite (ProcessReturnCall_hit now2 ani2 did (cleanupStaleCalls now1 r) callID record)
    by (by rewrite ?Hacm, ?Hdcm).
  simpl. split; [done|].
  assert (tbl_call_records (db (cleanupStaleCalls now1 r)) !! i =
            Some (call_records.set_end_time (Some now1)
                    (call_records.set_status CallStateFailed x))) as Hrow.
  { rewrite cleanupStaleCalls_rows, list_lookup_fmap, Hi. simpl.
    by rewrite (stale_expire _ _ Hst). }
  split; [done|]. split.
  - rewrite list_lookup_fmap, Hrow. simpl. unfold update_status_row.
    assert (has_call_id callID (call_records.set_end_time (Some now1)
              (call_records.set_status CallStateFailed x)) = true) as ->
      by by apply has_call_id_true.
    done.
  - intros [d0 Hd0]. apply elem_of_free_dids. exists (release_row now1 d0). split; [|done].
    simpl. rewrite cleanupStaleCalls_dids_lookup.
    assert (x ∈ tbl_call_records (db r)) as Hin by by eapply list_elem_of_lookup_2.
    rewrite (filter_nonempty _ _ _ Hin Hst), (joined_expired _ _ _ Hin Hst). simpl.
    by rewrite Hd0.
Qed.

Lemma late_return_revives_witness :
  (ProcessReturnCall 900 "222" "15550001" (cleanupStaleCalls 400 router_forwarded)).2
    = Ok (CallResponse.mk "success" EmptyString "trunk-s4" "111" "222") ∧
  "15550001" ∈ free_dids
    (db (ProcessReturnCall 900 "222" "15550001" (cleanupStaleCalls 400 router_forwarded)).1).
Proof.
  destruct (late_return_revives 400 900 "222" "15550001" router_forwarded "c1"
              (CallRecord.mk 0 "c1" "111" "222" "15550001" CallStateActive 0 None 0
                 "/var/spool/asterisk/recordings/c1.wav") 0
              (call_records.mk "c1" "111" "222" "15550001" CallStateForwarded 0 None 0
                 "/var/spool/asterisk/recordings/c1.wav"))
    as (Hresp & _ & _ & Hfree); try (vm_compute; reflexivity).
  split; [exact Hresp|]. apply Hfree. vm_compute. eauto.
Defined.

(** ** The reaper on its ticker *)

Lemma cleanupStaleCalls_free_stays now r did :
  did ∈ free_dids (db r) → did ∈ free_dids (db (cleanupStaleCalls now r)).
Proof.
  rewrite !elem_of_free_dids. intros (x & Hx & Hfree).
  rewrite cleanupStaleCalls_dids_lookup, Hx. destruct (_ && _); simpl; eauto.
Qed.

Lemma cleanupStaleCalls_pool_is_Some now r did :
  is_Some (tbl_dids (db r) !! did) → is_Some (tbl_dids (db (cleanupStaleCalls now r)) !! did).
Proof.
  intros [x Hx]. rewrite cleanupStaleCalls_dids_lookup, Hx. destruct (_ && _); simpl; eauto.
Qed.

Lemma cleanupRoutine_failed_stays start n r i y :
  tbl_call_records (db r) !! i = Some y →
  call_records.status y = CallStateFailed →
  tbl_call_records (db (cleanupRoutine start n r)) !! i = Some y.
Proof.
  revert start r. induction n as [|k IH]; intros start r Hi Hst; [done|]. simpl.
  apply IH; [|done]. rewrite cleanupStaleCalls_rows, list_lookup_fmap, Hi. simpl.
  unfold expire, stale. by rewrite Hst.
Qed.

Lemma cleanupRoutine_free_stays start n r did :
  did ∈ free_dids (db r) → did ∈ free_dids (db (cleanupRoutine start n r)).
Proof.
  revert start r. induction n as [|k IH]; intros start r H; [done|]. simpl.
  by apply IH, cleanupStaleCalls_free_stays.
Qed.

(** X16. Left to the reaper, a call that is ACTIVE or FORWARDED is failed
    between 301 and 330 seconds after it started.  With the ticker made no
    later than 300 seconds after the start of the call, once the ticks
    have passed that mark the row is FAILED, with an end time in that
    window, and its DID, if the pool has it, is free. *)
Theorem reaper_latency start (n : nat) (r : Router) i x :
  tbl_call_records (db r) !! i = Some x →
  call_records.status x = CallStateActive ∨ call_records.status x = CallStateForwarded →
  (start ≤ call_records.start_time x + 300)%Z →
  (call_records.start_time x + 300 < start + 30 * Z.of_nat n)%Z →
  ∃ e, (call_records.start_time x + 300 < e ≤ call_records.start_time x + 330)%Z ∧
       tbl_call_records (db (cleanupRoutine start n r)) !! i =
         Some (call_records.set_end_time (Some e)
                 (call_records.set_status CallStateFailed x)) ∧
       (is_Some (tbl_dids (db r) !! call_records.assigned_did x) →
        call_records.assigned_did x ∈ free_dids (db (cleanupRoutine start n r))).
Proof.
  revert start r. induction n as [|k IH]; intros start r Hi Hst Hstart Hend; [lia|].
  simpl. destruct (decide (call_records.start_time x + 300 < start + 30)%Z) as [Hnow|Hnot].
  - assert (stale (start + 30) x = true) as Hstale.
    { unfold stale. destruct Hst as [-> | ->]; apply Z.ltb_lt; lia. }
    assert (x ∈ tbl_call_records (db r)) as Hin by by eapply list_elem_of_lookup_2.
    exists (start + 30)%Z. split; [lia|]. split.
    + apply cleanupRoutine_failed_stays; [|done].
      rewrite cleanupStaleCalls_rows, list_lookup_fmap, Hi. simpl.
      by rewrite (stale_expire _ _ Hstale).
    + intros [d0 Hd0]. apply cleanupRoutine_free_stays, elem_of_free_dids.
      exists (release_row (start + 30) d0). split; [|done].
      rewrite cleanupStaleCalls_dids_lookup.
      rewrite (filter_nonempty _ _ _ Hin Hstale), (joined_expired _ _ _ Hin Hstale).
      simpl. by rewrite Hd0.
  - destruct (IH (start + 30)%Z (cleanupStaleCalls (start + 30) r)) as (e & He & Hrow & Hdid).
    + rewrite cleanupStaleCalls_rows, list_lookup_fmap, Hi. simpl.
      unfold expire, stale.
      assert ((call_records.start_time x <? start + 30 - 300)%Z = false) as ->
        by (apply Z.ltb_ge; lia).
      by destruct (call_records.status x).
    + done.
    + lia.
    + lia.
    + exists e. split; [done|]. split; [done|].
      intros Hsome. by apply Hdid, cleanupStaleCalls_pool_is_Some.
Qed.

Lemma reaper_latency_witness :
  ∃ e, (0 + 300 < e ≤ 0 + 330)%Z ∧
       call_records.end_time <$> tbl_call_records (db (cleanupRoutine 17 11 router_forwarded))
         = [Some e] ∧
       "15550001" ∈ free_dids (db (cleanupRoutine 17 11 router_forwarded)).
Proof.
  destruct (reaper_latency 17 11 router_forwarded 0
              (call_records.mk "c1" "111" "222" "15550001" CallStateForwarded 0 None 0
                 "/var/spool/asterisk/recordings/c1.wav"))
    as (e & He & Hrow & Hfree).
  - vm_compute. reflexivity.
  - by right.
  - simpl. lia.
  - simpl. lia.
  - exists e. split; [exact He|]. split.
    + assert (tbl_call_records (db (cleanupRoutine 17 11 router_forwarded))
              = [call_records.set_end_time (Some e)
                   (call_records.set_status CallStateFailed
                      (call_records.mk "c1" "111" "222" "15550001" CallStateForwarded 0 None 0
                         "/var/spool/asterisk/recordings/c1.wav"))]) as ->; [|done].
      apply list_eq. intros [|j]; [exact Hrow|]. vm_compute. reflexivity.
    + apply Hfree. vm_compute. eauto.
Defined.

(** ** Statistics *)

Lemma pool_size_split (d : DB) :
  size (tbl_dids d)
  = (size (filter (fun kv => dids.in_use kv.2 = true) (tbl_dids d))
     + length (free_dids d))%nat.
Proof.
  unfold free_dids. rewrite length_fmap, length_map_to_list.
  rewrite <- (map_filter_union_complement (fun kv => dids.in_use kv.2 = true) (tbl_dids d))
    at 1.
  rewrite map_size_disj_union by apply map_disjoint_filter_complement.
  f_equal. f_equal. apply map_filter_ext. intros did x _. simpl.
  by destruct (dids.in_use x).
Qed.

(** X17. The pool figures of [GetStatistics] are those of the allocator:
    [available_dids] is the number of DIDs [getAvailableDID] can draw, so it
    is zero exactly when every [ProcessIncomingCall] fails for want of a
    DID; [used_dids] lies between zero and [total_dids]; and [active_calls]
    is the number of entries of [memory_calls]. *)
Theorem statistics_pool now today (r : Router) :
  let s := GetStatistics now today r in
  Statistics.available_dids s = Z.of_nat (length (free_dids (db r))) ∧
  (0 ≤ Statistics.used_dids s ≤ Statistics.total_dids s)%Z ∧
  (Statistics.available_dids s = 0%Z ↔
   ∀ now' rnd callID ani dnis,
     (ProcessIncomingCall now' rnd callID ani dnis r).2 = Err (ErrNoAvailableDIDs ErrNoRows)) ∧
  Statistics.active_calls s = Z.of_nat (length (Statistics.memory_calls s)).
Proof.
  simpl. pose proof (pool_size_split (db r)) as Hsplit.
  split; [lia|]. split; [lia|]. split.
  - split.
    + intros Hzero now' rnd callID ani dnis.
      assert (free_dids (db r) = []) as Hnil.
      { destruct (free_dids (db r)); [done|]. simpl in *. lia. }
      destruct (ProcessIncomingCall now' rnd callID ani dnis r).2 as [resp|e] eqn:E.
      * by apply incoming_Ok_free in E.
      * by destruct (incoming_Err_inv _ _ _ _ _ _ _ E) as [-> _].
    + intros Hfail. specialize (Hfail 0%Z 0%nat EmptyString EmptyString EmptyString).
      destruct (incoming_Err_inv _ _ _ _ _ _ _ Hfail) as [_ Hnil].
      rewrite Hnil in Hsplit. simpl in Hsplit. lia.
  - by rewrite length_fmap, length_map_to_list.
Qed.

Lemma completed_today_le (today : Z → bool) (f : call_records.row → call_records.row)
    (rows added : list call_records.row) :
  (∀ x, keeps x (f x)) →
  Forall (fun a => call_records.status a ≠ CallStateCompleted) added →
  (length (List.filter (fun x => bool_decide (call_records.status x = CallStateCompleted))
             (List.filter (fun x => today (call_records.start_time x))
                          ((f <$> rows) ++ added)))
   ≤ length (List.filter (fun x => bool_decide (call_records.status x = CallStateCompleted))
               (List.filter (fun x => today (call_records.start_time x)) rows)))%nat.
Proof.
  intros Hf Hadded. rewrite !List.filter_app, !length_app.
  assert (List.filter (fun x => bool_decide (call_records.status x = CallStateCompleted))
            (List.filter (fun x => today (call_records.start_time x)) added) = []) as ->.
  { induction Hadded as [|a added Ha _ IH]; [done|]. simpl.
    destruct (today _); simpl; [|done]. by rewrite bool_decide_eq_false_2. }
  simpl. rewrite Nat.add_0_r.
  induction rows as [|x rows IH]; [done|]. simpl.
  destruct (Hf x) as [(_ & _ & _ & Hstart & _) Hk]. rewrite Hstart.
  destruct (today (call_records.start_time x)); simpl; [|done].
  destruct (bool_decide (call_records.status (f x) = CallStateCompleted)) eqn:E.
  - apply bool_decide_eq_true in E. pose proof (Hk E) as Hx. rewrite Hx in E.
    rewrite (bool_decide_eq_true_2 _ E). simpl. apply le_n_S. exact IH.
  - destruct (bool_decide (call_records.status x = CallStateCompleted)); simpl;
      [apply le_S|]; exact IH.
Qed.

(** X18. Through any run of the engine [total_dids] stays what it was,
    [active_calls] does not go down, calls that returned or were failed
    included, and [completed_calls], counted with the same test for today,
    does not go up. *)
Theorem statistics_over_runs now now' today today' (ops : list op) (r : Router) :
  Statistics.total_dids (GetStatistics now' today' (run ops r))
    = Statistics.total_dids (GetStatistics now today r) ∧
  (Statistics.active_calls (GetStatistics now today r)
     ≤ Statistics.active_calls (GetStatistics now' today' (run ops r)))%Z ∧
  (Statistics.completed_calls (GetStatistics now' today (run ops r))
     ≤ Statistics.completed_calls (GetStatistics now today r))%Z.
Proof.
  simpl. split; [|split].
  - f_equal. rewrite <- !(size_dom (D := gset string)).
    f_equal. revert r. induction ops as [|o ops IH]; intros r; [done|].
    change (run (o :: ops) r) with (run ops (step r o)). rewrite IH.
    apply set_eq. intros did. rewrite !elem_of_dom, <- !not_eq_None_Some.
    by destruct (step_dids_lookup r o did) as [-> _].
  - apply inj_le. rewrite <- !(size_dom (D := gset string)).
    apply subseteq_size, run_dom.
  - apply inj_le. destruct (run_shape ops r) as (f & added & -> & Hf & Hadded).
    by apply completed_today_le.
Qed.

(** ** The handlers *)

Lemma ProcessReturnCall_Err now ani2 did r e :
  (ProcessReturnCall now ani2 did r).2 = Err e → (ProcessReturnCall now ani2 did r).1 = r.
Proof.
  unfold ProcessReturnCall.
  destruct (didToCallMap r !! cleanString did) as [callID|].
  - by destruct (activeCallsMap r !! callID).
  - destruct (getCallRecordByDID now (cleanString did) (db r)) as [record|e']; [|done].
    simpl. by rewrite lookup_insert_eq.
Qed.

(** X19. [handleProcessIncoming] answers 400 "Missing parameters" when
    [callid], [ani] or [dnis] is empty or absent, without touching the
    router; with all three present it answers 500 with the "no available
    DIDs" error, again changing nothing, when no DID is free, and otherwise
    200 with a DID that was free, [ani_to_send] the [dnis] it was given and
    [dnis_to_send] the DID. *)
Theorem handleProcessIncoming_codes now rnd callid ani dnis (r : Router) :
  (callid = EmptyString ∨ ani = EmptyString ∨ dnis = EmptyString →
   handleProcessIncoming now rnd callid ani dnis r
   = (r, (StatusBadRequest, Text "Missing parameters"))) ∧
  (callid ≠ EmptyString → ani ≠ EmptyString → dnis ≠ EmptyString →
   (free_dids (db r) = [] →
    handleProcessIncoming now rnd callid ani dnis r
    = (r, (StatusInternalServerError, ErrorText (ErrNoAvailableDIDs ErrNoRows)))) ∧
   (free_dids (db r) ≠ [] →
    ∃ did, did ∈ free_dids (db r) ∧
           (handleProcessIncoming now rnd callid ani dnis r).2
           = (StatusOK, JSON (CallResponse.mk "success" did "trunk-s3" dnis did)))).
Proof.
  unfold handleProcessIncoming. split.
  - intros [-> | [-> | ->]]; simpl; rewrite ?orb_true_r; done.
  - intros H1 H2 H3.
    rewrite !bool_decide_eq_false_2 by done. simpl.
    destruct (ProcessIncomingCall now rnd callid ani dnis r) as [r1 res] eqn:E.
    assert (Hres : (ProcessIncomingCall now rnd callid ani dnis r).2 = res) by by rewrite E.
    assert (Hr1 : (ProcessIncomingCall now rnd callid ani dnis r).1 = r1) by by rewrite E.
    destruct res as [resp|e]; split.
    + intros Hnil. by apply incoming_Ok_free in Hres.
    + intros _. destruct (ProcessIncomingCall_Ok _ _ _ _ _ _ _ Hres) as (did & Hin & -> & _).
      by exists did.
    + intros _. destruct (incoming_Err_inv _ _ _ _ _ _ _ Hres) as [-> _].
      apply ProcessIncomingCall_Err in Hres. by rewrite Hr1 in Hres; subst r1.
    + intros Hne. by destruct (incoming_Err_inv _ _ _ _ _ _ _ Hres) as [_ ?].
Qed.

Lemma handleProcessIncoming_codes_witness :
  handleProcessIncoming 0 0 "c1" EmptyString "222" (router0 true)
    = (router0 true, (StatusBadRequest, Text "Missing parameters")) ∧
  handleProcessIncoming 9 4 "c9" "111" "222" router_busy
    = (router_busy, (StatusInternalServerError, ErrorText (ErrNoAvailableDIDs ErrNoRows))) ∧
  ∃ did, did ∈ free_dids (db (router0 true)) ∧
         (handleProcessIncoming 0 0 "c1" "111" "222" (router0 true)).2
         = (StatusOK, JSON (CallResponse.mk "success" did "trunk-s3" "222" did)).
Proof.
  split; [|split].
  - refine (proj1 (handleProcessIncoming_codes 0 0 "c1" EmptyString "222" (router0 true)) _).
    right. by left.
  - refine (proj1 (proj2 (handleProcessIncoming_codes 9 4 "c9" "111" "222" router_busy)
                     _ _ _) _); [discriminate..|].
    vm_compute. reflexivity.
  - refine (proj2 (proj2 (handleProcessIncoming_codes 0 0 "c1" "111" "222" (router0 true))
                     _ _ _) _); [discriminate..|].
    vm_compute. discriminate.
Defined.

(** X20. [handleProcessReturn] answers 400 "Missing parameters" when [ani2]
    or [did] is empty or absent.  With both present, every failure of the
    router is answered 404 and leaves the router as it was; in a state a
    run of the engine leads to, that is the case exactly for a DID that,
    once cleaned, neither the index nor a live ledger row knows, and any
    other DID is answered 200. *)
Theorem handleProcessReturn_codes now ani2 did (r : Router) :
  (ani2 = EmptyString ∨ did = EmptyString →
   handleProcessReturn now ani2 did r = (r, (StatusBadRequest, Text "Missing parameters"))) ∧
  (ani2 ≠ EmptyString → did ≠ EmptyString →
   (∀ e, (ProcessReturnCall now ani2 did r).2 = Err e →
         handleProcessReturn now ani2 did r = (r, (StatusNotFound, ErrorText e))) ∧
   (index_inv r →
    (didToCallMap r !! cleanString did = None ∧
     (∀ x, x ∈ tbl_call_records (db r) → call_records.assigned_did x = cleanString did →
           restorable now x = false) →
     handleProcessReturn now ani2 did r
     = (r, (StatusNotFound, ErrorText (ErrNoActiveCall (cleanString did))))) ∧
    (is_Some (didToCallMap r !! cleanString did) ∨
     (∃ x, x ∈ tbl_call_records (db r) ∧ call_records.assigned_did x = cleanString did ∧
           restorable now x = true) →
     ∃ resp, (handleProcessReturn now ani2 did r).2 = (StatusOK, JSON resp)))).
Proof.
  unfold handleProcessReturn. split.
  - intros [-> | ->]; simpl; rewrite ?orb_true_r; done.
  - intros H1 H2. rewrite !bool_decide_eq_false_2 by done. simpl. split.
    + intros e He. pose proof (ProcessReturnCall_Err _ _ _ _ _ He) as Hr.
      destruct (ProcessReturnCall now ani2 did r) as [r1 res]. simpl in *. by subst.
    + intros [Hinv _]. split.
      * intros [Hd Hnone]. unfold ProcessReturnCall. rewrite Hd.
        pose proof (getCallRecordByDID_found now (cleanString did) (db r)) as H.
        destruct (getCallRecordByDID now (cleanString did) (db r)) as [record|e]; [|done].
        destruct H as (x & Hin & Hdid & Hres & _). rewrite (Hnone x Hin Hdid) in Hres. done.
      * intros [[callID Hd]|(x & Hx & Hdid & Hres)].
        -- destruct (Hinv _ _ Hd) as [record Hrec].
           rewrite (ProcessReturnCall_hit _ _ _ _ _ _ Hd Hrec). eauto.
        -- destruct (didToCallMap r !! cleanString did) as [callID|] eqn:Hd.
           ++ destruct (Hinv _ _ Hd) as [record Hrec].
              rewrite (ProcessReturnCall_hit _ _ _ _ _ _ Hd Hrec). eauto.
           ++ pose proof (getCallRecordByDID_found now (cleanString did) (db r)) as H.
              destruct (getCallRecordByDID now (cleanString did) (db r)) as [record|e] eqn:Hg.
              ** rewrite (ProcessReturnCall_miss _ ani2 _ _ _ Hd Hg). eauto.
              ** destruct H as [_ H]. rewrite (H x Hx Hdid) in Hres. done.
Qed.

Lemma handleProcessReturn_codes_witness :
  handleProcessReturn 5 "222" EmptyString router_forwarded
    = (router_forwarded, (StatusBadRequest, Text "Missing parameters")) ∧
  handleProcessReturn 5 "222" "15550002" router_forwarded
    = (router_forwarded, (StatusNotFound, ErrorText (ErrNoActiveCall "15550002"))).
Proof.
  split.
  - refine (proj1 (handleProcessReturn_codes 5 "222" EmptyString router_forwarded) _).
    by right.
  - refine (proj1 (proj2 (handleProcessReturn_codes 5 "222" "15550002" router_forwarded)
                     _ _) (ErrNoActiveCall "15550002") _); [discriminate..|].
    vm_compute. reflexivity.
Defined.

(** ** What [cleanString] leaves *)

Lemma trimLeft_head n (s : list ascii) a t :
  (length s ≤ n)%nat → trimLeft s = a :: t → asciiSpace a = false.
Proof.
  revert s. induction n as [|n IH]; intros s Hlen.
  - destruct s; [done|simpl in Hlen; lia].
  - destruct s as [|a0 [|b [|c v]]]; simpl in *; [done|..].
    + destruct (asciiSpace a0) eqn:E; [done|]. by intros [= <- _].
    + destruct (asciiSpace a0) eqn:E.
      * destruct (asciiSpace b) eqn:Eb; [done|]. by intros [= <- _].
      * destruct (space2 a0 b); [done|]. by intros [= <- _].
    + destruct (asciiSpace a0) eqn:E.
      * apply (IH (b :: c :: v)). simpl. lia.
      * destruct (space2 a0 b).
        -- apply (IH (c :: v)). simpl. lia.
        -- destruct (space3 a0 b c); [apply (IH v); lia|]. by intros [= <- _].
Qed.

Lemma trimLeftRev_head n (s : list ascii) a t :
  (length s ≤ n)%nat → trimLeftRev s = a :: t → asciiSpace a = false.
Proof.
  revert s. induction n as [|n IH]; intros s Hlen.
  - destruct s; [done|simpl in Hlen; lia].
  - destruct s as [|c [|b [|a0 v]]]; simpl in *; [done|..].
    + destruct (asciiSpace c) eqn:E; [done|]. by intros [= <- _].
    + destruct (asciiSpace c) eqn:E.
      * destruct (asciiSpace b) eqn:Eb; [done|]. by intros [= <- _].
      * destruct (space2 b c); [done|]. by intros [= <- _].
    + destruct (asciiSpace c) eqn:E.
      * apply (IH (b :: a0 :: v)). simpl. lia.
      * destruct (space2 b c).
        -- apply (IH (a0 :: v)). simpl. lia.
        -- destruct (space3 a0 b c); [apply (IH v); lia|]. by intros [= <- _].
Qed.

Lemma trimLeftRev_cons c (t : list ascii) :
  trimLeftRev (c :: t) =
    if asciiSpace c then trimLeftRev t else
    match t with
    | [] => c :: t
    | b :: u =>
      if space2 b c then trimLeftRev u else
      match u with
      | [] => c :: t
      | a :: v => if space3 a b c then trimLeftRev v else c :: t
      end
    end.
Proof. reflexivity. Qed.

Lemma trimLeftRev_suffix n (s : list ascii) :
  (length s ≤ n)%nat → ∃ p, s = (p ++ trimLeftRev s)%list.
Proof.
  revert s. induction n as [|n IH]; intros s Hlen.
  - destruct s; [by exists []|simpl in Hlen; lia].
  - destruct s as [|c t]; [by exists []|]. rewrite trimLeftRev_cons.
    simpl in Hlen. destruct (asciiSpace c).
    { destruct (IH t) as [p Hp]; [lia|]. exists (c :: p). simpl. by f_equal. }
    destruct t as [|b u]; [by exists []|].
    simpl in Hlen. destruct (space2 b c).
    { destruct (IH u) as [p Hp]; [lia|]. exists (c :: b :: p). simpl. by do 2 f_equal. }
    destruct u as [|a v]; [by exists []|].
    simpl in Hlen. destruct (space3 a b c); [|by exists []].
    destruct (IH v) as [p Hp]; [lia|]. exists (c :: b :: a :: p). simpl. by do 3 f_equal.
Qed.

Lemma last_rev_head {A} (l : list A) : last (rev l) = head l.
Proof. destruct l as [|a t]; [done|]. simpl. apply last_snoc. Qed.

Lemma TrimSpace_ends (s : list ascii) :
  (∀ a, head (TrimSpace s) = Some a → asciiSpace a = false) ∧
  (∀ a, last (TrimSpace s) = Some a → asciiSpace a = false).
Proof.
  unfold TrimSpace. set (m := trimLeft s).
  destruct (trimLeftRev_suffix (length (rev m)) (rev m)) as [p Hp]; [done|].
  set (T := trimLeftRev (rev m)) in *. split.
  - intros a Ha.
    assert (m = (rev T ++ rev p)%list) as Hm
      by by rewrite <- rev_app_distr, <- Hp, rev_involutive.
    destruct (rev T) as [|a' t'] eqn:E; [done|]. simpl in Ha. injection Ha as ->.
    simpl in Hm. by apply (trimLeft_head (length s) s a (t' ++ rev p)).
  - intros a Ha. rewrite last_rev_head in Ha.
    destruct T as [|a' t'] eqn:E; [done|]. simpl in Ha. injection Ha as ->.
    by apply (trimLeftRev_head (length (rev m)) (rev m) a t').
Qed.

Lemma removeByte_ends c (s : list ascii) :
  asciiSpace c = true →
  (∀ a, head s = Some a → asciiSpace a = false) →
  (∀ a, last s = Some a → asciiSpace a = false) →
  (∀ a, head (removeByte c s) = Some a → asciiSpace a = false) ∧
  (∀ a, last (removeByte c s) = Some a → asciiSpace a = false).
Proof.
  intros Hc Hhead Hlast. unfold removeByte. split.
  - destruct s as [|a0 t]; [done|]. simpl.
    destruct (Ascii.eqb_spec a0 c) as [->|_]; simpl.
    + rewrite (Hhead c eq_refl) in Hc. done.
    + intros a [= <-]. by apply Hhead.
  - destruct s as [|z t _] using rev_ind; [done|].
    rewrite List.filter_app. simpl. rewrite last_snoc in Hlast.
    destruct (Ascii.eqb_spec z c) as [->|_]; simpl.
    + rewrite (Hlast c eq_refl) in Hc. done.
    + intros a. rewrite last_snoc. intros [= <-]. by apply Hlast.
Qed.

(** X21. What comes out of [cleanString] holds no line feed and no carriage
    return, and neither begins nor ends with an ASCII white-space byte. *)
Theorem cleanString_clean (s : string) :
  Forall (fun c => c ≠ "010"%char ∧ c ≠ "013"%char) (list_ascii_of_string (cleanString s)) ∧
  (∀ a, head (list_ascii_of_string (cleanString s)) = Some a → asciiSpace a = false) ∧
  (∀ a, last (list_ascii_of_string (cleanString s)) = Some a → asciiSpace a = false).
Proof.
  unfold cleanString. rewrite list_ascii_of_string_of_list_ascii. split.
  - apply Forall_forall. intros c Hc.
    apply list_elem_of_In, filter_In in Hc as [Hc H13].
    apply filter_In in Hc as [_ H10].
    apply negb_true_iff in H10, H13. split.
    + intros ->. by rewrite Ascii.eqb_refl in H10.
    + intros ->. by rewrite Ascii.eqb_refl in H13.
  - destruct (TrimSpace_ends (list_ascii_of_string s)) as [Hh Hl].
    destruct (removeByte_ends "010"%char _ eq_refl Hh Hl) as [Hh1 Hl1].
    apply (removeByte_ends "013"%char _ eq_refl Hh1 Hl1).
Qed.


(** ** Acquiring without the lock *)

(** X22. The two statements of an acquisition do not guard each other.
    When two callers have selected the same free DID before either marks
    it, the first [markDIDInUse] succeeds and so does the second, which
    rebinds the DID to its own destination; the second fails, with "DID not
    found", only when it carries the same destination in the same second,
    the row then reading the same already.  Only [r.mu] keeps two
    acquisitions of one DID apart. *)
Theorem unlocked_acquisitions_collide rnd1 rnd2 now1 now2 did dnis1 dnis2 (d d1 : DB) :
  getAvailableDID rnd1 d = Ok did →
  getAvailableDID rnd2 d = Ok did →
  markDIDInUse now1 did dnis1 d = Ok d1 →
  (dnis2 ≠ dnis1 ∨ now2 ≠ now1 →
   ∃ d2, markDIDInUse now2 did dnis2 d1 = Ok d2 ∧
         dids.destination <$> tbl_dids d2 !! did = Some (Some dnis2) ∧
         dids.in_use <$> tbl_dids d2 !! did = Some true) ∧
  (dnis2 = dnis1 → now2 = now1 →
   markDIDInUse now2 did dnis2 d1 = Err (ErrDIDNotFound did)).
Proof.
  intros _ _ (x & Hx & ->)%markDIDInUse_Ok. unfold markDIDInUse. simpl.
  rewrite lookup_insert_eq. simpl. split.
  - intros Hdiff. rewrite decide_False.
    + eexists. split; [done|]. simpl. by rewrite lookup_insert_eq.
    + intros [= ? ?]. destruct Hdiff; done.
  - intros -> ->. by rewrite decide_True.
Qed.

Lemma unlocked_acquisitions_collide_witness :
  ∃ d1 d2, markDIDInUse 7 "15550001" "222" (db (router0 true)) = Ok d1 ∧
           markDIDInUse 7 "15550001" "444" d1 = Ok d2 ∧
           dids.destination <$> tbl_dids d2 !! "15550001" = Some (Some "444").
Proof.
  destruct (markDIDInUse 7 "15550001" "222" (db (router0 true))) as [d1|e] eqn:E;
    [|vm_compute in E; discriminate].
  destruct (unlocked_acquisitions_collide 0 2 7 7 "15550001" "222" "444"
              (db (router0 true)) d1) as [H _].
  { vm_compute. reflexivity. }
  { vm_compute. reflexivity. }
  { exact E. }
  destruct H as (d2 & Hm & Hdest & _); [left; discriminate|].
  exists d1, d2. split; [reflexivity|]. split; [exact Hm|exact Hdest].
Defined.

(** ** A call id that comes in again *)

(** X23. When a call id comes in again more than five minutes after the
    ledger first saw it, on a table that takes the upsert, the row keeps its
    first start time: it is FORWARDED with the new DID, and the next run of
    the reaper fails it at once and frees the DID just assigned, while the
    index goes on answering returns for that DID. *)
Theorem stale_retry_is_reaped now now' rnd callID ani dnis (r : Router) resp i x :
  call_records_updated_at (db r) = true →
  tbl_call_records (db r) !! i = Some x →
  call_records.call_id x = callID →
  (call_records.start_time x < now - 300)%Z →
  (now ≤ now')%Z →
  (ProcessIncomingCall now rnd callID ani dnis r).2 = Ok resp →
  let r1 := (ProcessIncomingCall now rnd callID ani dnis r).1 in
  let did := CallResponse.DIDAssigned resp in
  tbl_call_records (db r1) !! i =
    Some (call_records.set_assigned_did did (call_records.set_status CallStateForwarded x)) ∧
  tbl_call_records (db (cleanupStaleCalls now' r1)) !! i =
    Some (call_records.set_end_time (Some now')
            (call_records.set_assigned_did did (call_records.set_status CallStateFailed x))) ∧
  did ∈ free_dids (db (cleanupStaleCalls now' r1)) ∧
  didToCallMap (cleanupStaleCalls now' r1) !! did = Some callID.
Proof.
  intros Hcol Hi Hid Hold Hle Hok. simpl.
  destruct (ProcessIncomingCall_ledger _ _ _ _ _ _ _ Hok) as [Hrows _].
  rewrite Hcol in Hrows.
  destruct (ProcessIncomingCall_Ok _ _ _ _ _ _ _ Hok) as (did & _ & Hresp & _ & Hdcm).
  destruct (ProcessIncomingCall_dids _ _ _ _ _ _ _ Hok) as (x0 & _ & _ & Hdids).
  assert (tbl_call_records (db (ProcessIncomingCall now rnd callID ani dnis r).1) !! i =
            Some (call_records.set_assigned_did (CallResponse.DIDAssigned resp)
                    (call_records.set_status CallStateForwarded x))) as Hrow.
  { rewrite Hrows, upsert_shape, list_lookup_fmap.
    rewrite lookup_app_l by (rewrite length_fmap; by eapply lookup_lt_Some).
    rewrite list_lookup_fmap, Hi. simpl.
    assert (has_call_id callID x = true) as Hx by by apply has_call_id_true.
    rewrite Hx. unfold update_status_row. simpl.
    assert (has_call_id callID
              (call_records.set_assigned_did (CallResponse.DIDAssigned resp)
                 (call_records.set_status CallStateActive x)) = true) as ->
      by by apply has_call_id_true.
    done. }
  split; [done|].
  set (r1 := (ProcessIncomingCall now rnd callID ani dnis r).1) in *.
  set (y := call_records.set_assigned_did (CallResponse.DIDAssigned resp)
              (call_records.set_status CallStateForwarded x)) in *.
  assert (stale now' y = true) as Hstale.
  { unfold stale, y. simpl. apply Z.ltb_lt. lia. }
  assert (y ∈ tbl_call_records (db r1)) as Hin by by eapply list_elem_of_lookup_2.
  split; [|split].
  - rewrite cleanupStaleCalls_rows, list_lookup_fmap, Hrow. simpl.
    by rewrite (stale_expire _ _ Hstale).
  - apply elem_of_free_dids.
    exists (release_row now' (dids.mk true (Some dnis) (dids.country x0) now)).
    split; [|done]. rewrite cleanupStaleCalls_dids_lookup.
    rewrite (filter_nonempty _ _ _ Hin Hstale).
    pose proof (joined_expired now' _ _ Hin Hstale) as Hj. simpl in Hj. rewrite Hj. simpl.
    by rewrite Hdids, lookup_insert_eq.
  - destruct (cleanupStaleCalls_maps now' r1) as [_ ->].
    rewrite Hdcm, Hresp. simpl. apply lookup_insert_eq.
Qed.

Lemma stale_retry_is_reaped_witness :
  call_records.status <$>
    tbl_call_records
      (db (cleanupStaleCalls 430 (ProcessIncomingCall 400 0 "c1" "111" "222"
                                    router_forwarded).1)) = [CallStateFailed] ∧
  "15550002" ∈ free_dids
    (db (cleanupStaleCalls 430 (ProcessIncomingCall 400 0 "c1" "111" "222"
                                  router_forwarded).1)).
Proof.
  destruct (stale_retry_is_reaped 400 430 0 "c1" "111" "222" router_forwarded
              (CallResponse.mk "success" "15550002" "trunk-s3" "222" "15550002") 0
              (call_records.mk "c1" "111" "222" "15550001" CallStateForwarded 0 None 0
                 "/var/spool/asterisk/recordings/c1.wav"))
    as (_ & _ & Hfree & _); try (vm_compute; reflexivity); try (simpl; lia).
  split; [vm_compute; reflexivity|exact Hfree].
Defined.

(** X24. A string of ASCII bytes none of which is white space, a number of
    digits for one, comes out of [cleanString] as it went in. *)
Theorem cleanString_fixes_plain (s : string) :
  forallb plain (list_ascii_of_string s) = true → cleanString s = s.
Proof.
  intros H. unfold cleanString.
  rewrite (TrimSpace_plain _ H).
  rewrite (removeByte_plain "010"%char _ eq_refl H).
  rewrite (removeByte_plain "013"%char _ eq_refl H).
  apply string_of_list_ascii_of_string.
Qed.

Lemma cleanString_fixes_plain_witness : cleanString "+12125551001" = "+12125551001".
Proof. apply cleanString_fixes_plain. vm_compute. reflexivity. Defined.
